(** * Signature help of jupyterlab-lsp: formatting and response handling

    A shallow embedding of
    [packages/jupyterlab-lsp/src/features/signature.ts] (the functions
    [extractLead], [signatureToMarkdown], [get_markup_for_signature_help],
    [handleSignature], [_afterChange], [requestSignature]) and of
    [getExtraInfo] of the completion renderer, with the properties of the
    specification stated over them.

    Conventions.
    - A JavaScript string is a [string]: a sequence of code units, here
      restricted to the code units below U+0100.
    - A JavaScript [number] that holds a count, an index or an offset is a
      [Z]; the one place where the source produces [-Infinity]
      ([Math.max] of no arguments) uses [jsnum].
    - [undefined] and [null] of an optional field are [None] wherever the
      source does not tell them apart; where it does, the two are kept
      apart: the response of the server is the three-constructor type
      [Response], and [activeParameter] of a signature description is an
      [OptionalNumber].
    - Calls to collaborators (logger, code highlighter, tooltip) are
      recorded in a trace of [event]s; a JavaScript exception is the
      outcome [Threw]. *)

From Stdlib Require Import ZArith List String Ascii Bool Lia.
Import ListNotations.

Local Open Scope string_scope.
Local Open Scope Z_scope.

(** ** JavaScript string and array primitives used by the source *)

Module Js.

Definition nl : ascii := Ascii.ascii_of_nat 10.

(** The one-character string written ['\n'] in the source. *)
Definition NL : string := String nl EmptyString.

Definition len (s : string) : Z := Z.of_nat (String.length s).

(** A JavaScript number that may be [-Infinity]. *)
Inductive jsnum : Type :=
| NegInfinity
| Num (z : Z).

(** [WhiteSpace] and [LineTerminator] code units below U+0100:
    TAB, LF, VT, FF, CR, SP and NBSP. *)
Definition isSpace (c : ascii) : bool :=
  let n := nat_of_ascii c in
  (9 <=? n)%nat && (n <=? 13)%nat || (n =? 32)%nat || (n =? 160)%nat.

Fixpoint trimStart (s : string) : string :=
  match s with
  | EmptyString => EmptyString
  | String c s' => if isSpace c then trimStart s' else s
  end.

Fixpoint trimEnd (s : string) : string :=
  match s with
  | EmptyString => EmptyString
  | String c s' =>
      match trimEnd s' with
      | EmptyString => if isSpace c then EmptyString else String c EmptyString
      | t => String c t
      end
  end.

(** [s.trim()] *)
Definition trim (s : string) : string := trimEnd (trimStart s).

(** [s.split('\n')]: never empty, [''.split('\n')] is [['']]. *)
Fixpoint split_nl (s : string) : list string :=
  match s with
  | EmptyString => [EmptyString]
  | String c s' =>
      if Ascii.eqb c nl then EmptyString :: split_nl s'
      else match split_nl s' with
           | [] => [String c EmptyString]
           | l :: ls => String c l :: ls
           end
  end.

(** [xs.join('\n')] *)
Definition join_nl (xs : list string) : string := String.concat NL xs.

(** Relative index of [slice]: a negative index counts from the end. *)
Definition relIndex (length i : Z) : Z :=
  if i <? 0 then Z.max (length + i) 0 else Z.min i length.

(** [xs.slice(start, stop)] *)
Definition slice {A : Type} (start stop : Z) (xs : list A) : list A :=
  let n := Z.of_nat (List.length xs) in
  let k := relIndex n start in
  let final := relIndex n stop in
  firstn (Z.to_nat (final - k)) (skipn (Z.to_nat k) xs).

(** [xs.slice(start)] *)
Definition sliceFrom {A : Type} (start : Z) (xs : list A) : list A :=
  skipn (Z.to_nat (relIndex (Z.of_nat (List.length xs)) start)) xs.

(** [s.slice(start, stop)] on a string. *)
Definition strSlice (start stop : Z) (s : string) : string :=
  let k := relIndex (len s) start in
  let final := relIndex (len s) stop in
  String.substring (Z.to_nat k) (Z.to_nat (final - k)) s.

(** [s.substring(0, stop)]: the end is clamped into [0, length]. *)
Definition substring0 (stop : jsnum) (s : string) : string :=
  let final :=
    match stop with
    | NegInfinity => 0
    | Num z => Z.min (Z.max z 0) (len s)
    end in
  String.substring 0 (Z.to_nat final) s.

(** [s.search(/[...]/)] for a character class [p]: the index of the first
    code unit in the class, or [-1]. *)
Fixpoint searchFrom (p : ascii -> bool) (s : string) (i : Z) : Z :=
  match s with
  | EmptyString => -1
  | String c s' => if p c then i else searchFrom p s' (i + 1)
  end.

Definition search (p : ascii -> bool) (s : string) : Z := searchFrom p s 0.

Fixpoint lastIndexOfFrom (pat s : string) (i : Z) : option Z :=
  match s with
  | EmptyString => if String.prefix pat EmptyString then Some i else None
  | String _ s' =>
      match lastIndexOfFrom pat s' (i + 1) with
      | Some r => Some r
      | None => if String.prefix pat s then Some i else None
      end
  end.

(** [s.lastIndexOf(pat)] *)
Definition lastIndexOf (pat s : string) : Z :=
  match lastIndexOfFrom pat s 0 with
  | Some r => r
  | None => -1
  end.

(** [s.toLowerCase()] on code units below U+0100. *)
Definition lowerChar (c : ascii) : ascii :=
  let n := nat_of_ascii c in
  if (65 <=? n)%nat && (n <=? 90)%nat
     || (192 <=? n)%nat && (n <=? 222)%nat && negb (n =? 215)%nat
  then ascii_of_nat (n + 32) else c.

Fixpoint toLowerCase (s : string) : string :=
  match s with
  | EmptyString => EmptyString
  | String c s' => String (lowerChar c) (toLowerCase s')
  end.

(** [Math.max(...xs)]: [-Infinity] when there is no argument. *)
Fixpoint mathMax (xs : list Z) : jsnum :=
  match xs with
  | [] => NegInfinity
  | x :: rest =>
      match mathMax rest with
      | NegInfinity => Num x
      | Num m => Num (Z.max x m)
      end
  end.

(** [a !== b] on numbers. *)
Definition strictNeq (a b : jsnum) : bool :=
  match a, b with
  | Num x, Num y => negb (x =? y)
  | NegInfinity, NegInfinity => false
  | _, _ => true
  end.

(** [xs.includes(x)] on an array of strings. *)
Definition includes (x : string) (xs : list string) : bool :=
  existsb (String.eqb x) xs.

(** Number of occurrences of [pat] in [s] (positions where [pat] starts). *)
Fixpoint countOcc (pat s : string) : nat :=
  match s with
  | EmptyString => if String.prefix pat EmptyString then 1%nat else 0%nat
  | String _ s' =>
      ((if String.prefix pat s then 1 else 0) + countOcc pat s')%nat
  end.

End Js.

Import Js.

(** ** [extractLead] (signature.ts, lines 42-71) *)

Record ISplit : Type := { lead : string; remainder : string }.

(** [/[\\*#[\]<>_]/]: the class of the regular expression. *)
Definition isMarkdownSpecial (c : ascii) : bool :=
  existsb (Ascii.eqb c)
    [ascii_of_nat 92; "*"; "#"; "["; "]"; "<"; ">"; "_"]%char.

(** The [for] loop of [extractLead]: the lines pushed to [leadLines] and
    the final value of [splitOnParagraph]. *)
Fixpoint leadLoop (ls : list string) : list string * bool :=
  match ls with
  | [] => ([], false)
  | line :: rest =>
      let isEmpty := String.eqb (trim line) "" in
      if isEmpty then ([], true)
      else let (leadLines, splitOnParagraph) := leadLoop rest in
           (line :: leadLines, splitOnParagraph)
  end.

Definition extractLead (lines : list string) (size : Z) : option ISplit :=
  let (leadLines, splitOnParagraph) := leadLoop (slice 0 (size + 1) lines) in
  let leadCandidate := join_nl leadLines in
  if splitOnParagraph && (search isMarkdownSpecial leadCandidate =? -1)
  then Some {| lead := leadCandidate;
               remainder :=
                 join_nl (sliceFrom (Z.of_nat (List.length leadLines) + 1) lines) |}
  else None.

(** ** Data model (vscode-languageserver-protocol, as used by the source) *)

(** [string | MarkupContent] *)
Inductive Documentation : Type :=
| DocString (s : string)
| DocMarkup (kind value : string).

(** [string | [number, number]] *)
Inductive ParameterLabel : Type :=
| LabelString (s : string)
| LabelRange (start stop : Z).

Record ParameterInformation : Type := {
  plabel : ParameterLabel;
  pdocumentation : option Documentation
}.

(** [number | null | undefined] for a field that may be left out and may
    be [null]. *)
Inductive OptionalNumber : Type :=
| Undefined
| Null
| Value (n : Z).

Record SignatureInformation : Type := {
  label : string;
  documentation : option Documentation;
  parameters : option (list ParameterInformation);
  activeParameter : OptionalNumber
}.

Record SignatureHelp : Type := {
  signatures : list SignatureInformation;
  activeSignature : option Z;
  helpActiveParameter : option Z
}.

(** What the request promise resolves to: [null] means close, [undefined]
    means no update, an object means update. *)
Inductive Response : Type :=
| RNull
| RUndefined
| RHelp (help : SignatureHelp).

Record MarkupContent : Type := { kind : string; value : string }.

(** A position in the root document; its fields are compared by
    [handleSignature]. *)
Record IRootPosition : Type := { line : Z; ch : Z }.

(** A position in an editor ([CodeMirror.Position]) and a position of
    [CodeEditor.IPosition]; the source only passes them around. The
    character offset is a number that [positionAtOffset] may be asked to
    derive from [-Infinity]. *)
Record IEditorPosition : Type := { eline : Z; ech : jsnum }.

Record IPosition : Type := { pline : Z; column : jsnum }.

(** The CodeMirror editor returned by [get_cm_editor]. *)
Record CmEditor : Type := { hasFocus : bool; getValue : string }.

(** Truthiness of an optional [string | MarkupContent]: [undefined] and the
    empty string are falsy, every object is truthy. *)
Definition truthyDoc (d : option Documentation) : bool :=
  match d with
  | None => false
  | Some (DocString s) => negb (String.eqb s "")
  | Some (DocMarkup _ _) => true
  end.

(** [xs[i]] for a number [i]: [undefined] outside of the array. *)
Definition at_ {A : Type} (xs : list A) (i : Z) : option A :=
  if i <? 0 then None else nth_error xs (Z.to_nat i).

Definition isSet {A : Type} (o : option A) : bool :=
  match o with Some _ => true | None => false end.

(** ** Effects: a trace of collaborator calls and an outcome *)

Inductive exn : Type :=
| TypeError (msg : string).

Inductive outcome (A : Type) : Type :=
| Returned (a : A)
| Threw (e : exn).

Arguments Returned {A} a.
Arguments Threw {A} e.

Definition mapOutcome {A B : Type} (f : A -> B) (o : outcome A) : outcome B :=
  match o with
  | Returned a => Returned (f a)
  | Threw e => Threw e
  end.

Inductive event : Type :=
| ConsoleLog (msg : string)
| ConsoleDebug (msg : string)
| ConsoleWarn (msg arg : string)
| ConsoleError (msg : string)
| Highlight (source variable language : string)
| TooltipRemove
| TooltipHide
| TooltipShowOrCreate (markup : MarkupContent) (position : IEditorPosition).

Definition M (A : Type) : Type := (list event * outcome A)%type.

Definition ret {A : Type} (a : A) : M A := ([], Returned a).

Definition bind {A B : Type} (m : M A) (f : A -> M B) : M B :=
  match m with
  | (t, Returned a) => let (t', r) := f a in ((t ++ t')%list, r)
  | (t, Threw e) => (t, Threw e)
  end.

Definition emit (e : event) : M unit := ([e], Returned tt).

Definition throw {A : Type} (e : exn) : M A := ([], Threw e).

Notation "x <- c1 ;; c2" := (bind c1 (fun x => c2))
  (at level 61, c1 at next level, right associativity).
Notation "c1 ;;; c2" := (bind c1 (fun _ => c2))
  (at level 61, right associativity).

Definition trace {A : Type} (m : M A) : list event := fst m.
Definition result {A : Type} (m : M A) : outcome A := snd m.

Definition isTooltipEvent (e : event) : bool :=
  match e with
  | TooltipRemove | TooltipHide | TooltipShowOrCreate _ _ => true
  | _ => false
  end.

Definition isShowOrCreate (e : event) : bool :=
  match e with
  | TooltipShowOrCreate _ _ => true
  | _ => false
  end.

Definition isHighlight (e : event) : bool :=
  match e with
  | Highlight _ _ _ => true
  | _ => false
  end.

(** The calls made on the tooltip, in order. *)
Definition tooltipCalls {A : Type} (m : M A) : list event :=
  filter isTooltipEvent (trace m).

(** A computation that makes no call on the tooltip. *)
Definition silent {A : Type} (m : M A) : Prop := tooltipCalls m = [].

(** Modelled from the spec: the popup collaborator ([EditorTooltipManager]
    of [../components/free_tooltip] is not among the sources). Its state
    is the popup on display, if any, with its content and anchor; [hide]
    and [remove] take it off display, [showOrCreate] puts one on display. *)
Definition Tooltip : Type := option (MarkupContent * IEditorPosition).

Definition isShown (t : Tooltip) : bool := isSet t.

Definition tooltipStep (t : Tooltip) (e : event) : Tooltip :=
  match e with
  | TooltipRemove | TooltipHide => None
  | TooltipShowOrCreate markup position => Some (markup, position)
  | _ => t
  end.

Definition runTooltip (t : Tooltip) (events : list event) : Tooltip :=
  fold_left tooltipStep events t.

(** ** [getExtraInfo] of the completion renderer (part_000, lines 89-111) *)

Record CompletionItem : Type := {
  detail : option string;
  type : option string;
  (** [source?.name] *)
  sourceName : option string
}.

(** [x || ''] *)
Definition orEmpty (x : option string) : string :=
  match x with Some s => s | None => "" end.

(** [!!x] for [string | undefined] *)
Definition truthyString (x : option string) : bool :=
  match x with Some s => negb (String.eqb s "") | None => false end.

(** [xs.filter(x => !!x)[0]] *)
Definition firstTruthy (xs : list (option string)) : option string :=
  match filter truthyString xs with
  | x :: _ => x
  | [] => None
  end.

Definition labelExtraMessage : string :=
  "labelExtra does not match any of the expected values".

(** [labelExtra] is [this.options.settings.composite.labelExtra]; the
    result is a string or [undefined]. *)
Definition getExtraInfo (labelExtra : string) (item : option CompletionItem)
  : M (option string) :=
  let itemDetail := match item with Some i => detail i | None => None end in
  let itemType :=
    option_map toLowerCase (match item with Some i => type i | None => None end) in
  let itemSource := match item with Some i => sourceName i | None => None end in
  if String.eqb labelExtra "detail" then ret (Some (orEmpty itemDetail))
  else if String.eqb labelExtra "type" then ret itemType
  else if String.eqb labelExtra "source" then ret itemSource
  else if String.eqb labelExtra "auto" then
    ret (firstTruthy [Some (orEmpty itemDetail); itemType; itemSource])
  else
    emit (ConsoleWarn labelExtraMessage labelExtra) ;;;
    ret (Some "").

(** ** The completion renderer: [_elideMark], [updateExtraInfo] and the
    activity observer (part_000) *)

(** A DOM node, as far as the renderer looks at it: a text node, or an
    element with its tag name, attributes, class list and child nodes. *)
#[warnings="-register-all"]
Inductive node : Type :=
| TextNode (data : string)
| Element (tagName : string) (attributes : list (string * string))
    (classList : list string) (childNodes : list node).

(** [node.textContent] *)
Fixpoint textContent (n : node) : string :=
  match n with
  | TextNode data => data
  | Element _ _ _ children =>
      (fix all (ns : list node) : string :=
         match ns with
         | [] => ""
         | c :: rest => textContent c ++ all rest
         end) children
  end.

(** The text of a list of sibling nodes, in order. *)
Fixpoint textOfNodes (ns : list node) : string :=
  match ns with
  | [] => ""
  | c :: rest => textContent c ++ textOfNodes rest
  end.

(** [classList.add(name)] *)
Definition classListAdd (name : string) (classes : list string) : list string :=
  if includes name classes then classes else (classes ++ [name])%list.

(** What the renderer reaches of the list item of a completion: the child
    nodes of [li.getElementsByClassName(LABEL_CLASS)[0]] and the text of
    [li.getElementsByClassName(EXTRA_INFO_CLASS)[0]], each [None] when the
    list item holds no such element; the two elements are distinct and
    neither lies inside the other. *)
Record CompletionLI : Type := {
  labelChildNodes : option (list node);
  extraTextContent : option string
}.

(** Lines 164-178, one round of the loop: a [MARK] element with text gets
    a single [bdo] child holding that text, and the class [lsp-elide]. *)
Definition elideNode (n : node) : node * bool :=
  match n with
  | TextNode _ => (n, false)
  | Element tagName attributes classList children =>
      let text := textContent n in
      if String.eqb tagName "MARK" && negb (String.eqb text "") then
        let elidableElement :=
          Element "BDO" [("dir", "ltr"); ("title", text)] [] [TextNode text] in
        (Element tagName attributes (classListAdd "lsp-elide" classList)
           [elidableElement], true)
      else (n, false)
  end.

(** Lines 163-178: the label nodes after the loop, and [hasMark]. *)
Fixpoint elideLoop (ns : list node) : list node * bool :=
  match ns with
  | [] => ([], false)
  | n :: rest =>
      let (n', marked) := elideNode n in
      let (rest', hasMark) := elideLoop rest in
      (n' :: rest', marked || hasMark)
  end.

(** Lines 152-185. *)
Definition _elideMark (item : option CompletionItem) (li : CompletionLI)
  : outcome CompletionLI :=
  match item with
  | None => Returned li
  | Some i =>
      if negb (truthyString (type i)) then Returned li
      else
        let type := toLowerCase (orEmpty (type i)) in
        if negb (String.eqb type "file") && negb (String.eqb type "path")
        then Returned li
        else
          match labelChildNodes li with
          | None =>
              Threw (TypeError
                "Cannot read properties of undefined (reading 'childNodes')")
          | Some originalHTMLLabel =>
              let (children, hasMark) := elideLoop originalHTMLLabel in
              if hasMark then
                let wrapper :=
                  Element "DIV" [] ["lsp-elide-wrapper"] children in
                Returned {| labelChildNodes := Some [wrapper];
                            extraTextContent := extraTextContent li |}
              else
                Returned {| labelChildNodes := Some children;
                            extraTextContent := extraTextContent li |}
          end
  end.

(** Lines 113-120. *)
Definition updateExtraInfo (labelExtra : string) (item : option CompletionItem)
    (li : CompletionLI) : M CompletionLI :=
  extraText <- getExtraInfo labelExtra item ;;
  if truthyString extraText then
    match extraTextContent li with
    | None =>
        throw (TypeError
          "Cannot set properties of undefined (setting 'textContent')")
    | Some _ =>
        let li' := {| labelChildNodes := labelChildNodes li;
                      extraTextContent := extraText |} in
        match _elideMark item li' with
        | Returned li'' => ret li''
        | Threw e => throw e
        end
    end
  else ret li.

(** Lines 142-143: what [createCompletionItemNode] does to the list item
    of one of its own completion items. *)
Definition decorateItemNode (labelExtra : string) (item : option CompletionItem)
    (li : CompletionLI) : M CompletionLI :=
  li' <- updateExtraInfo labelExtra item li ;;
  match _elideMark item li' with
  | Returned li'' => ret li''
  | Threw e => throw e
  end.

(** A mutation record handed to the activity observer: the identity of
    its target, whether the target is an [HTMLLIElement], and whether its
    class list holds [jp-mod-active]. *)
Record Mutation : Type := {
  target : nat;
  targetIsLI : bool;
  targetActive : bool
}.

(** The [WeakMap] [wasActivated]. *)
Definition ActivationMap : Type := nat -> option bool.

Definition mapSet (m : ActivationMap) (key : nat) (v : bool) : ActivationMap :=
  fun k => if Nat.eqb k key then Some v else m k.

(** [!x] for [boolean | undefined] *)
Definition falsyFlag (x : option bool) : bool :=
  match x with Some true => false | _ => true end.

(** Lines 66-85, one mutation: the map afterwards and the target for which
    [activeChanged] is emitted, if it is. *)
Definition activityStep (wasActivated : ActivationMap) (mutation : Mutation)
  : ActivationMap * option nat :=
  let li := target mutation in
  if negb (targetIsLI mutation) then (wasActivated, None)
  else
    let inactive := falsyFlag (wasActivated li) in
    if targetActive mutation then
      if inactive then (mapSet wasActivated li true, Some li)
      else (wasActivated, None)
    else (mapSet wasActivated li false, None).

(** Lines 65-86: the callback on a batch of mutations; the emissions of
    [activeChanged] in order. *)
Fixpoint activityObserver (wasActivated : ActivationMap)
    (mutations : list Mutation) : ActivationMap * list nat :=
  match mutations with
  | [] => (wasActivated, [])
  | mutation :: rest =>
      let (w, emitted) := activityStep wasActivated mutation in
      let (w', later) := activityObserver w rest in
      (w', match emitted with
           | Some li => li :: later
           | None => later
           end)
  end.

(** The activations a sequence of states shows: the states that are active
    while the one before was not. *)
Fixpoint risingEdges (before : bool) (states : list bool) : nat :=
  match states with
  | [] => 0%nat
  | s :: rest =>
      ((if s && negb before then 1 else 0) + risingEdges s rest)%nat
  end.

(** ** [findActiveAdapter] (signature.ts, lines 504-513) *)

(** A widget adapter: its widget, by identity, if it has one. *)
Record Adapter : Type := {
  adapterName : string;
  widget : option nat
}.

(** [a == b] on widgets that may be [null] or [undefined]. *)
Definition looseEq (a b : option nat) : bool :=
  match a, b with
  | None, None => true
  | Some x, Some y => Nat.eqb x y
  | _, _ => false
  end.

(** [adapters] is [[...manager.adapters.values()]]. *)
Definition findActiveAdapter (adapters : list Adapter)
    (currentWidget : option nat) : option Adapter :=
  match currentWidget with
  | Some _ => None
  | None => find (fun adapter => looseEq (widget adapter) currentWidget) adapters
  end.

(** ** The getter [signatureCharacters] (signature.ts, lines 414-420) *)

(** [cached] is [this._signatureCharacters], [triggerCharacters] what the
    server capabilities hold when the getter runs; the result is the value
    returned and [this._signatureCharacters] afterwards. *)
Definition signatureCharactersGetter (cached : option (list string))
    (triggerCharacters : option (list string))
  : list string * option (list string) :=
  match cached with
  | Some (c :: cs) => (c :: cs, cached)
  | _ =>
      let fresh := match triggerCharacters with
                   | Some cs => cs
                   | None => []
                   end in
      (fresh, Some fresh)
  end.

(** What the getter returns after further runs: [between] holds the
    trigger characters of the server capabilities at each run in between,
    [last] those at the final run. *)
Fixpoint readAfter (cached : option (list string))
    (between : list (option (list string))) (last : option (list string))
  : list string :=
  match between with
  | [] => fst (signatureCharactersGetter cached last)
  | triggerCharacters :: rest =>
      readAfter (snd (signatureCharactersGetter cached triggerCharacters))
        rest last
  end.

(** [later] is what the getter returns at some run after the run that
    returned [earlier]. *)
Definition readLater (earlier later : list string) : Prop :=
  exists cached first between last,
    earlier = fst (signatureCharactersGetter cached first)
    /\ later
       = readAfter (snd (signatureCharactersGetter cached first)) between last.

(** [a < b] on numbers that may be [-Infinity]. *)
Definition jsLt (a b : jsnum) : bool :=
  match a, b with
  | NegInfinity, Num _ => true
  | Num x, Num y => x <? y
  | _, NegInfinity => false
  end.

(** ** The class [SignatureCM]: what its methods read *)

(** What the methods read from [this] and from the collaborators reached
    through it, at the time a method runs. *)
Record SignatureCM : Type := {
  signatureCharacter : option IRootPosition;
  (** the value of the getter [signatureCharacters] *)
  signatureCharacters : list string;
  (** the value of the getter [_closeCharacters] *)
  closeCharacters : list string;
  (** [settings.composite.maxLines] *)
  maxLines : Z;
  (** [virtual_editor.get_cursor_position()] *)
  get_cursor_position : IRootPosition;
  (** [virtual_editor.root_position_to_editor] *)
  root_position_to_editor : IRootPosition -> IEditorPosition;
  get_cm_editor : IRootPosition -> CmEditor;
  get_language_at : IEditorPosition -> CmEditor -> string;
  (** [connection.isReady] *)
  isReady : bool;
  (** [connection.serverCapabilities?.signatureHelpProvider] is present *)
  signatureHelpProvider : bool
}.

Definition set_signatureCharacter (self : SignatureCM)
    (p : IRootPosition) : SignatureCM :=
  {| signatureCharacter := Some p;
     signatureCharacters := signatureCharacters self;
     closeCharacters := closeCharacters self;
     maxLines := maxLines self;
     get_cursor_position := get_cursor_position self;
     root_position_to_editor := root_position_to_editor self;
     get_cm_editor := get_cm_editor self;
     get_language_at := get_language_at self;
     isReady := isReady self;
     signatureHelpProvider := signatureHelpProvider self |}.

(** A request in flight: the arguments [handleSignature] is called with
    when the promise of [requestSignature] resolves. *)
Record PendingRequest : Type := {
  position_at_request : IRootPosition;
  previousPosition : option IEditorPosition
}.

Definition wrongActiveMessage : string :=
  "LSP server returned wrong number for activeSignature for: ".

(** The unmarked, language-tagged code block of the bare label. *)
Definition codeBlock (language label : string) : string :=
  "```" ++ language ++ NL ++ label ++ NL ++ "```".

(** ** Vocabulary of the specification *)

(** Line [k] of [lines] exists and is blank (empty or whitespace only). *)
Definition blankAt (lines : list string) (k : nat) : Prop :=
  exists l, nth_error lines k = Some l /\ trim l = "".

(** [s] holds none of the characters [\ * # [ ] < > _]. *)
Definition plainText (s : string) : Prop :=
  forall c, In c (list_ascii_of_string s) -> isMarkdownSpecial c = false.

(** Number of collapsible regions opened in [s]. *)
Definition collapsibleRegions (s : string) : nat := countOcc "<details>" s.

(** Number of lines of a details text after trimming, as the source
    counts them. *)
Definition trimmedLines (details : string) : Z :=
  Z.of_nat (List.length (split_nl (trim details))).

(** ** Sample collaborators and inputs, for the examples *)

Module Sample.

(** An [escapeMarkdown] that escapes nothing. *)
Definition noEscape (s : string) : string := s.

(** A [codeHighlighter] that shows the source and the marked variable. *)
Definition markHighlighter (source variable language : string) : string :=
  "<pre>" ++ source ++ "<mark>" ++ variable ++ "</mark></pre>".

Definition cm_to_ce (p : IEditorPosition) : IPosition :=
  {| pline := eline p; column := ech p |}.

Definition ce_to_cm (p : IPosition) : IEditorPosition :=
  {| eline := pline p; ech := column p |}.

(** The loop of [offsetAtPosition] in [@jupyterlab/lsp]: the lengths of the
    lines before [position.line], each with its line break, plus
    [position.column]. *)
Fixpoint offsetAtPositionFrom (i offset : Z) (position : IPosition)
    (lines : list string) : jsnum :=
  match lines with
  | [] => Num offset
  | textLine :: rest =>
      if pline position =? i then
        match column position with
        | NegInfinity => NegInfinity
        | Num c => Num (offset + c)
        end
      else offsetAtPositionFrom (i + 1) (offset + len textLine + 1) position rest
  end.

Definition offsetAtPosition (position : IPosition) (lines : list string)
  : jsnum := offsetAtPositionFrom 0 0 position lines.

(** The loop of [positionAtOffset] in [@jupyterlab/lsp]: a line is skipped
    while [textLine.length + 1 <= offset]. *)
Fixpoint positionAtOffsetFrom (l : Z) (offset : jsnum) (lines : list string)
  : IPosition :=
  match lines with
  | [] => {| pline := l; column := Num 0 |}
  | textLine :: rest =>
      match offset with
      | Num o =>
          if len textLine + 1 <=? o
          then positionAtOffsetFrom (l + 1) (Num (o - (len textLine + 1))) rest
          else {| pline := l; column := offset |}
      | NegInfinity => {| pline := l; column := offset |}
      end
  end.

Definition positionAtOffset (offset : jsnum) (lines : list string)
  : IPosition := positionAtOffsetFrom 0 offset lines.

(** Scenario A and B of the specification: [foo(a, b)]. *)
Definition fooItem (active : option Z) : SignatureInformation :=
  {| label := "foo(a, b)";
     documentation := None;
     parameters := Some [ {| plabel := LabelRange 4 5; pdocumentation := None |};
                          {| plabel := LabelRange 7 8; pdocumentation := None |} ];
     activeParameter := match active with
                        | Some a => Value a
                        | None => Undefined
                        end |}.

(** A description with neither parameters nor documentation. *)
Definition bareItem : SignatureInformation :=
  {| label := "now()";
     documentation := None;
     parameters := None;
     activeParameter := Undefined |}.

Definition documentedItem (doc : string) : SignatureInformation :=
  {| label := "f(x)";
     documentation := Some (DocMarkup "markdown" doc);
     parameters := None;
     activeParameter := Undefined |}.

Definition fooHelp (active : option Z) : SignatureHelp :=
  {| signatures := [fooItem None];
     activeSignature := Some 0;
     helpActiveParameter := active |}.

(** Scenario D of the specification: six lines, the third one blank. *)
Definition sixLines : string :=
  "one" ++ NL ++ "two" ++ NL ++ NL ++ "four" ++ NL ++ "five" ++ NL ++ "six".

(** Two descriptions, the first with an active parameter of its own. *)
Definition twoSignatures : SignatureHelp :=
  {| signatures := [fooItem (Some 0); bareItem];
     activeSignature := None;
     helpActiveParameter := None |}.

(** Two descriptions and an active-signature index out of bounds. *)
Definition strayActiveSignature : SignatureHelp :=
  {| signatures := [fooItem None; documentedItem sixLines];
     activeSignature := Some 7;
     helpActiveParameter := Some 1 |}.

(** An editor holding [foo(] with the cursor behind the parenthesis. *)
Definition editor : CmEditor := {| hasFocus := true; getValue := "foo(" |}.

Definition self (triggers : list string) (cursor : IRootPosition)
  : SignatureCM :=
  {| signatureCharacter := Some {| line := 0; ch := 4 |};
     signatureCharacters := triggers;
     closeCharacters := [")"];
     maxLines := 4;
     get_cursor_position := cursor;
     root_position_to_editor :=
       fun p => {| eline := line p; ech := Num (ch p) |};
     get_cm_editor := fun _ => editor;
     get_language_at := fun _ _ => "python";
     isReady := true;
     signatureHelpProvider := true |}.

(** A cursor in an editor that has lost focus. *)
Definition unfocused : SignatureCM :=
  {| signatureCharacter := Some {| line := 0; ch := 4 |};
     signatureCharacters := ["("];
     closeCharacters := [")"];
     maxLines := 4;
     get_cursor_position := {| line := 0; ch := 4 |};
     root_position_to_editor :=
       fun p => {| eline := line p; ech := Num (ch p) |};
     get_cm_editor := fun _ => {| hasFocus := false; getValue := "foo(" |};
     get_language_at := fun _ _ => "python";
     isReady := true;
     signatureHelpProvider := true |}.

(** A description whose documentation only repeats the label, with a
    documented parameter. *)
Definition echoedItem : SignatureInformation :=
  {| label := "f(x)";
     documentation := Some (DocString ("  f(x) " ++ NL ++ "f(x)"));
     parameters := Some [ {| plabel := LabelString "x";
                             pdocumentation := Some (DocString "a number") |} ];
     activeParameter := Undefined |}.

(** Two descriptions, the first active, the second one with an active
    parameter that cannot be rendered. *)
Definition firstActive : SignatureHelp :=
  {| signatures := [fooItem None; fooItem (Some 2)];
     activeSignature := Some 0;
     helpActiveParameter := Some 1 |}.

(** The label of a completion of a path, with the matched part marked. *)
Definition pathLabel : list node :=
  [TextNode "src/"; Element "MARK" [] [] [TextNode "ma"]; TextNode "in.py"].

Definition pathItem : CompletionItem :=
  {| detail := None; type := Some "Path"; sourceName := Some "LSP" |}.

Definition pathLI : CompletionLI :=
  {| labelChildNodes := Some pathLabel; extraTextContent := Some "" |}.

(** A popup on display, anchored behind the parenthesis. *)
Definition shownTooltip : Tooltip :=
  Some ({| kind := "markdown"; value := "" |}, {| eline := 0; ech := Num 3 |}).

End Sample.

Section Signature.

(** [escapeMarkdown] of [../utils]. *)
Variable escapeMarkdown : string -> string.

(** The injected [codeHighlighter]; [highlightCode] in the class. *)
Variable codeHighlighter : string -> string -> string -> string.

(** [PositionConverter.cm_to_ce] and [PositionConverter.ce_to_cm]. *)
Variable cm_to_ce : IEditorPosition -> IPosition.
Variable ce_to_cm : IPosition -> IEditorPosition.

(** [offsetAtPosition] and [positionAtOffset] of [@jupyterlab/lsp]. *)
Variable offsetAtPosition : IPosition -> list string -> jsnum.
Variable positionAtOffset : jsnum -> list string -> IPosition.

(** *** [getMarkdown] (lines 30-40) *)

Definition getMarkdown (item : Documentation) : string :=
  match item with
  | DocString s => escapeMarkdown s
  | DocMarkup k v =>
      if String.eqb k "markdown" then v else escapeMarkdown v
  end.

(** *** [signatureToMarkdown] (lines 76-160) *)

(** Lines 88-111: the value of [markdown] before the details are added.
    Only an [undefined] [item.activeParameter] gives way to the fallback;
    the test [activeParameter != null] of line 94 then takes [null] and
    [undefined] alike. *)
Definition labelMarkdown (item : SignatureInformation) (language : string)
    (activeParameterFallback : option Z) : M string :=
  let activeParameter :=
    match activeParameter item with
    | Undefined => activeParameterFallback
    | Null => None
    | Value a => Some a
    end in
  match parameters item, activeParameter with
  | Some ps, Some ap =>
      if ap >? Z.of_nat (List.length ps) then
        emit (ConsoleError wrongActiveMessage) ;;;
        ret (codeBlock language (label item))
      else
        match at_ ps ap with
        | None =>
            throw (TypeError "Cannot read properties of undefined (reading 'label')")
        | Some parameter =>
            let substring :=
              match plabel parameter with
              | LabelString s => s
              | LabelRange start stop => strSlice start stop (label item)
              end in
            emit (Highlight (label item) substring language) ;;;
            ret (codeHighlighter (label item) substring language)
        end
  | _, _ => ret (codeBlock language (label item))
  end.

(** Lines 123-129: the loop over the lines of plain-text documentation. *)
Definition plainTextDetails (item : SignatureInformation)
    (plainTextDocumentation : string) : string :=
  fold_left
    (fun details line =>
       if String.eqb (trim line) (trim (label item)) then details
       else details ++ getMarkdown (DocString line) ++ NL)
    (split_nl plainTextDocumentation) "".

(** Lines 137-142: the bullet list of the documented parameters. *)
Definition parameterDetails (ps : list ParameterInformation) : string :=
  NL ++ NL ++
  join_nl
    (map (fun parameter =>
            "- " ++ match pdocumentation parameter with
                    | Some d => getMarkdown d
                    | None => ""
                    end)
         (filter (fun parameter => truthyDoc (pdocumentation parameter)) ps)).

(** Lines 112-143: the value of [details] before collapsing. *)
Definition signatureDetails (item : SignatureInformation) : M string :=
  if truthyDoc (documentation item) then
    match documentation item with
    | Some (DocString s) => ret (plainTextDetails item s)
    | Some (DocMarkup k v) =>
        if String.eqb k "plaintext" then ret (plainTextDetails item v)
        else
          (if negb (String.eqb k "markdown")
           then emit (ConsoleWarn "Unknown MarkupContent kind:" k)
           else ret tt) ;;;
          ret v
    | None => ret ""
    end
  else
    match parameters item with
    | Some ps => ret (parameterDetails ps)
    | None => ret ""
    end.

(** Lines 144-159: collapsing of the details and the final string. *)
Definition appendDetails (markdown details : string)
    (maxLinesBeforeCollapse : Z) : string :=
  if negb (String.eqb details "") then
    let lines := split_nl (trim details) in
    let details' :=
      if Z.of_nat (List.length lines) >? maxLinesBeforeCollapse then
        match extractLead lines maxLinesBeforeCollapse with
        | Some split =>
            lead split ++ NL ++ "<details>" ++ NL ++ remainder split
            ++ NL ++ "</details>"
        | None => "<details>" ++ NL ++ details ++ NL ++ "</details>"
        end
      else details in
    markdown ++ NL ++ NL ++ details'
  else markdown ++ NL.

Definition signatureToMarkdown (item : SignatureInformation)
    (language : string) (activeParameterFallback : option Z)
    (maxLinesBeforeCollapse : Z) : M string :=
  markdown <- labelMarkdown item language activeParameterFallback ;;
  details <- signatureDetails item ;;
  ret (appendDetails markdown details maxLinesBeforeCollapse).

(** The details text of a description, and its rendering when no active
    parameter applies: the unmarked code block with the details. *)
Definition detailsOf (item : SignatureInformation) : string :=
  match result (signatureDetails item) with
  | Returned details => details
  | Threw _ => ""
  end.

Definition unmarkedMarkdown (language : string) (maxLinesBeforeCollapse : Z)
    (item : SignatureInformation) : string :=
  appendDetails (codeBlock language (label item)) (detailsOf item)
    maxLinesBeforeCollapse.

(** *** Methods of [SignatureCM] (lines 225-482) *)

(** Lines 250-253: the [forEach] that formats every description, with no
    fallback for the active parameter. *)
Fixpoint formatEach (self : SignatureCM) (language : string)
    (items : list SignatureInformation) : M (list string) :=
  match items with
  | [] => ret []
  | item :: rest =>
      markdown <- signatureToMarkdown item language None (maxLines self) ;;
      others <- formatEach self language rest ;;
      ret (markdown :: others)
  end.

(** Lines 250-258. *)
Definition formatAll (self : SignatureCM) (response : SignatureHelp)
    (language : string) : M MarkupContent :=
  sigs <- formatEach self language (signatures response) ;;
  ret {| kind := "markdown"; value := String.concat (NL ++ NL) sigs |}.

(** Lines 225-259. *)
Definition get_markup_for_signature_help (self : SignatureCM)
    (response : SignatureHelp) (language : string) : M MarkupContent :=
  match activeSignature response with
  | Some active =>
      if active >=? Z.of_nat (List.length (signatures response)) then
        emit (ConsoleError wrongActiveMessage) ;;;
        formatAll self response language
      else
        match at_ (signatures response) active with
        | None =>
            throw (TypeError
              "Cannot read properties of undefined (reading 'activeParameter')")
        | Some item =>
            markdown <- signatureToMarkdown item language
                          (helpActiveParameter response) (maxLines self) ;;
            ret {| kind := "markdown"; value := markdown |}
        end
  | None => formatAll self response language
  end.

Definition _removeTooltip : M unit := emit TooltipRemove.

Definition _hideTooltip : M unit := emit TooltipHide.

(** Lines 374-395: the anchor when no display position was passed. *)
Definition anchorFromTrigger (self : SignatureCM) (cm_editor : CmEditor)
    (editor_position : IEditorPosition) : IEditorPosition :=
  let content := getValue cm_editor in
  let lines := split_nl content in
  let offset := offsetAtPosition (cm_to_ce editor_position) lines in
  let subset := substring0 offset content in
  let lastTriggerCharacterOffset :=
    mathMax (map (fun character => lastIndexOf character subset)
                 (signatureCharacters self)) in
  if strictNeq lastTriggerCharacterOffset (Num (-1)) then
    ce_to_cm (positionAtOffset lastTriggerCharacterOffset lines)
  else editor_position.

(** Lines 315-412. The test of line 329 is split on the shape of the
    response: for [null] and [undefined] the operand [!response] is true and
    the inner [if (response)] is false. *)
Definition handleSignature (self : SignatureCM) (response : Response)
    (position_at_request : IRootPosition)
    (display_position : option IEditorPosition) : M unit :=
  emit (ConsoleLog "Signature received") ;;;
  match response with
  | RNull => _removeTooltip
  | RHelp _ => _hideTooltip
  | RUndefined => ret tt
  end ;;;
  match response with
  | RNull | RUndefined =>
      emit (ConsoleDebug
              "Ignoring signature response: cursor lost or response empty")
  | RHelp help =>
      if negb (isSet (signatureCharacter self))
         || (List.length (signatures help) =? 0)%nat
      then
        _removeTooltip ;;;
        emit (ConsoleDebug
                "Ignoring signature response: cursor lost or response empty")
      else
        let root_position := get_cursor_position self in
        if negb (line position_at_request =? line root_position)
           || (ch root_position <? ch position_at_request)
        then
          emit (ConsoleDebug
            "Ignoring signature response: cursor has receded or changed line") ;;;
          _removeTooltip
        else
          let cm_editor := get_cm_editor self root_position in
          if negb (hasFocus cm_editor) then
            emit (ConsoleDebug
              "Ignoring signature response: the corresponding editor lost focus") ;;;
            _removeTooltip
          else
            let editor_position := root_position_to_editor self root_position in
            let language := get_language_at self editor_position cm_editor in
            markup <- get_markup_for_signature_help self help language ;;
            emit (ConsoleLog "Signature will be shown") ;;;
            let display_position :=
              match display_position with
              | None => anchorFromTrigger self cm_editor editor_position
              | Some p => p
              end in
            emit (TooltipShowOrCreate markup display_position)
  end.

(** Lines 452-482: [this] after the call, and the request sent, if any. *)
Definition requestSignature (self : SignatureCM) (root_position : IRootPosition)
    (previous : option IEditorPosition)
  : SignatureCM * option PendingRequest :=
  if negb (isReady self && signatureHelpProvider self) then (self, None)
  else (set_signatureCharacter self root_position,
        Some {| position_at_request := root_position;
                previousPosition := previous |}).

(** Lines 426-450; [last_character] is [extract_last_character(change)],
    [tooltip] the state of [lab_integration.tooltip]. *)
Definition _afterChange (self : SignatureCM) (tooltip : Tooltip)
    (last_character : string) (root_position : IRootPosition)
  : M (SignatureCM * option PendingRequest) :=
  let isSignatureShown := isShown tooltip in
  previous <-
    match tooltip with
    | Some (_, position) =>
        (if includes last_character (closeCharacters self)
         then _removeTooltip else ret tt) ;;;
        ret (Some position)
    | None => ret None
    end ;;
  if negb (includes last_character (signatureCharacters self)
           || isSignatureShown)
  then ret (self, None)
  else ret (requestSignature self root_position previous).

(** The promise of a request resolves with [response]. *)
Definition settle (self : SignatureCM) (request : PendingRequest)
    (response : Response) : M unit :=
  handleSignature self response (position_at_request request)
    (previousPosition request).

(** Lines 198-219; [tooltip] is the state of [lab_integration.tooltip]. *)
Definition onCursorActivity (self : SignatureCM) (tooltip : Tooltip)
  : M (SignatureCM * option PendingRequest) :=
  match tooltip with
  | None => ret (self, None)
  | Some (_, initialPosition) =>
      let newRootPosition := get_cursor_position self in
      let newEditorPosition := root_position_to_editor self newRootPosition in
      if (eline newEditorPosition =? eline initialPosition)
         && jsLt (ech newEditorPosition) (ech initialPosition)
      then _removeTooltip ;;; ret (self, None)
      else ret (requestSignature self newRootPosition (Some initialPosition))
  end.

(** Lines 187-196; [relatedTarget] is [None] for a [null]
    [event.relatedTarget], else whether [closest('.' + CLASS_NAME)] finds
    an element. *)
Definition onBlur (tooltip : Tooltip) (relatedTarget : option bool) : M unit :=
  if isShown tooltip then
    match relatedTarget with
    | None =>
        throw (TypeError "Cannot read properties of null (reading 'closest')")
    | Some insideSignature =>
        if negb insideSignature then _removeTooltip else ret tt
    end
  else ret tt.

(** The two callers of [requestSignature]: [request] is sent from [self],
    with the tooltip in the state [tooltip], by [_afterChange] or by
    [onCursorActivity]. *)
Definition issued (self : SignatureCM) (tooltip : Tooltip)
    (request : PendingRequest) : Prop :=
  (exists last_character root_position self',
      result (_afterChange self tooltip last_character root_position)
      = Returned (self', Some request))
  \/ (exists self',
         result (onCursorActivity self tooltip)
         = Returned (self', Some request)).

(** ** Trace and result of a sequence *)

Lemma trace_bind {A B : Type} (m : M A) (f : A -> M B) :
  trace (bind m f) =
  match result m with
  | Returned a => (trace m ++ trace (f a))%list
  | Threw _ => trace m
  end.
Proof.
  destruct m as [t [a | e]]; simpl; [destruct (f a); reflexivity | reflexivity].
Qed.

Lemma result_bind {A B : Type} (m : M A) (f : A -> M B) :
  result (bind m f) =
  match result m with
  | Returned a => result (f a)
  | Threw e => Threw e
  end.
Proof.
  destruct m as [t [a | e]]; simpl; [destruct (f a); reflexivity | reflexivity].
Qed.

(** ** Properties of [extractLead] *)

Lemma slice_prefix {A : Type} (stop : Z) (xs : list A) :
  0 <= stop -> slice 0 stop xs = firstn (Z.to_nat stop) xs.
Proof.
  intros Hstop. unfold slice, relIndex.
  replace (0 <? 0) with false by reflexivity.
  destruct (stop <? 0) eqn:Hneg; [apply Z.ltb_lt in Hneg; lia |].
  rewrite (Z.min_l 0) by lia. simpl skipn. rewrite Z.sub_0_r.
  destruct (Z.min_spec stop (Z.of_nat (List.length xs))) as [[Hlt ->] | [Hge ->]].
  - reflexivity.
  - rewrite Nat2Z.id. rewrite firstn_all.
    symmetry. apply firstn_all2. lia.
Qed.

Lemma sliceFrom_suffix {A : Type} (k : nat) (xs : list A) :
  sliceFrom (Z.of_nat k + 1) xs = skipn (S k) xs.
Proof.
  unfold sliceFrom, relIndex.
  destruct (Z.of_nat k + 1 <? 0) eqn:Hneg; [apply Z.ltb_lt in Hneg; lia |].
  destruct (Z.min_spec (Z.of_nat k + 1) (Z.of_nat (List.length xs)))
    as [[Hlt ->] | [Hge ->]].
  - f_equal. lia.
  - rewrite Nat2Z.id. rewrite skipn_all.
    symmetry. apply skipn_all2. lia.
Qed.

Lemma searchFrom_none (p : ascii -> bool) (s : string) :
  forall i, 0 <= i ->
    (searchFrom p s i = -1
     <-> forall c, In c (list_ascii_of_string s) -> p c = false).
Proof.
  induction s as [| c s IH]; intros i Hi; simpl.
  - split; [intros _ c [] | reflexivity].
  - destruct (p c) eqn:Hp.
    + split; [lia |].
      intros H. specialize (H c (or_introl eq_refl)). congruence.
    + rewrite (IH (i + 1)) by lia. split.
      * intros H d [<- | Hd]; [exact Hp | exact (H d Hd)].
      * intros H d Hd. apply H. right. exact Hd.
Qed.

Lemma search_none (p : ascii -> bool) (s : string) :
  search p s = -1 <-> forall c, In c (list_ascii_of_string s) -> p c = false.
Proof. apply searchFrom_none. lia. Qed.

Lemma leadLoop_found (ls : list string) :
  forall leadLines, leadLoop ls = (leadLines, true) ->
    leadLines = firstn (List.length leadLines) ls
    /\ blankAt ls (List.length leadLines)
    /\ forall j, (j < List.length leadLines)%nat -> ~ blankAt ls j.
Proof.
  induction ls as [| l ls IH]; intros leadLines H; simpl in H.
  - discriminate.
  - destruct (String.eqb (trim l) "") eqn:Hblank.
    + inversion H; subst. simpl. split; [reflexivity |]. split.
      * exists l. split; [reflexivity | apply String.eqb_eq; exact Hblank].
      * intros j Hj. lia.
    + destruct (leadLoop ls) as [lead found] eqn:Hloop.
      inversion H; subst. destruct (IH lead eq_refl) as (Hpre & Hb & Hnb).
      simpl. split; [f_equal; exact Hpre |]. split.
      * exact Hb.
      * intros [| j] Hj [b [Hnth Hb']]; simpl in Hnth.
        -- inversion Hnth; subst. apply String.eqb_neq in Hblank. contradiction.
        -- apply (Hnb j); [lia | exists b; auto].
Qed.

Lemma leadLoop_not_found (ls : list string) :
  forall leadLines, leadLoop ls = (leadLines, false) ->
    forall j, ~ blankAt ls j.
Proof.
  induction ls as [| l ls IH]; intros leadLines H j [b [Hnth Hb]]; simpl in H.
  - destruct j; discriminate.
  - destruct (String.eqb (trim l) "") eqn:Hblank; [discriminate |].
    destruct (leadLoop ls) as [lead found] eqn:Hloop.
    inversion H; subst.
    destruct j as [| j]; simpl in Hnth.
    + inversion Hnth; subst. apply String.eqb_neq in Hblank. contradiction.
    + apply (IH lead eq_refl j). exists b; auto.
Qed.

Lemma leadLoop_first_blank (ls : list string) :
  forall k, blankAt ls k -> (forall j, (j < k)%nat -> ~ blankAt ls j) ->
    leadLoop ls = (firstn k ls, true).
Proof.
  induction ls as [| l ls IH]; intros k [b [Hnth Hb]] Hfirst.
  - destruct k; discriminate.
  - simpl. destruct k as [| k]; simpl in Hnth.
    + inversion Hnth; subst. rewrite Hb. reflexivity.
    + destruct (String.eqb (trim l) "") eqn:Hblank.
      * exfalso. apply (Hfirst 0%nat); [lia |].
        exists l. split; [reflexivity | apply String.eqb_eq; exact Hblank].
      * rewrite (IH k).
        -- reflexivity.
        -- exists b; auto.
        -- intros j Hj [c [Hc1 Hc2]]. apply (Hfirst (S j)); [lia |].
           exists c; auto.
Qed.

Lemma blankAt_firstn (n k : nat) (ls : list string) :
  blankAt (firstn n ls) k <-> (k < n)%nat /\ blankAt ls k.
Proof.
  unfold blankAt. split.
  - intros [b [Hnth Hb]].
    assert (Hk : (k < n)%nat).
    { assert (Hlen : (k < List.length (firstn n ls))%nat)
        by (apply nth_error_Some; congruence).
      rewrite length_firstn in Hlen. lia. }
    split; [exact Hk |]. exists b. split; [| exact Hb].
    rewrite nth_error_firstn in Hnth.
    destruct (Nat.ltb_spec k n); [exact Hnth | lia].
  - intros [Hk [b [Hnth Hb]]]. exists b. split; [| exact Hb].
    rewrite nth_error_firstn.
    destruct (Nat.ltb_spec k n); [exact Hnth | lia].
Qed.

Lemma firstn_firstn_le {A : Type} (k n : nat) (xs : list A) :
  (k <= n)%nat -> firstn k (firstn n xs) = firstn k xs.
Proof. intros H. rewrite firstn_firstn. f_equal. lia. Qed.

(** C4, as amended. For every list of lines and every threshold [size]
    that is at least [-1], [extractLead] returns a split exactly when a
    blank line occurs among the first [size + 1] lines and the lines before
    the first blank one, joined with newlines, hold none of the characters
    [\ * # [ ] < > _]; the lead is then those lines joined and the
    remainder the lines after the blank one joined; in every other case
    the result is [null]. *)
Theorem C4_extractLead_split :
  forall (lines : list string) (size : Z),
    -1 <= size ->
    (forall sp : ISplit,
        extractLead lines size = Some sp <->
        exists k : nat,
          Z.of_nat k < size + 1
          /\ blankAt lines k
          /\ (forall j, (j < k)%nat -> ~ blankAt lines j)
          /\ plainText (join_nl (firstn k lines))
          /\ lead sp = join_nl (firstn k lines)
          /\ remainder sp = join_nl (skipn (S k) lines))
    /\ ((~ exists k : nat,
            Z.of_nat k < size + 1
            /\ blankAt lines k
            /\ (forall j, (j < k)%nat -> ~ blankAt lines j)
            /\ plainText (join_nl (firstn k lines)))
        -> extractLead lines size = None).
Proof.
  intros lines size Hsize.
  assert (Hfwd : forall sp, extractLead lines size = Some sp ->
    exists k : nat,
      Z.of_nat k < size + 1 /\ blankAt lines k
      /\ (forall j, (j < k)%nat -> ~ blankAt lines j)
      /\ plainText (join_nl (firstn k lines))
      /\ lead sp = join_nl (firstn k lines)
      /\ remainder sp = join_nl (skipn (S k) lines)).
  { intros sp H. unfold extractLead in H.
    rewrite slice_prefix in H by lia.
    destruct (leadLoop (firstn (Z.to_nat (size + 1)) lines))
      as [leadLines found] eqn:Hloop.
    destruct found; simpl in H; [| discriminate].
    destruct (search isMarkdownSpecial (join_nl leadLines) =? -1) eqn:Hsearch;
      [| discriminate].
    inversion H; subst sp; clear H. simpl.
    destruct (leadLoop_found _ _ Hloop) as (Hpre & Hblank & Hfirst).
    apply blankAt_firstn in Hblank. destruct Hblank as [Hk Hblank].
    rewrite firstn_firstn_le in Hpre by lia.
    exists (List.length leadLines).
    split; [lia |]. split; [exact Hblank |]. split.
    - intros j Hj Hb. apply (Hfirst j Hj). apply blankAt_firstn. split; [lia | exact Hb].
    - rewrite <- Hpre. split.
      + refine (proj1 (search_none _ _) _). apply Z.eqb_eq. exact Hsearch.
      + split; [reflexivity |]. rewrite sliceFrom_suffix. reflexivity. }
  assert (Hbwd : forall k : nat,
      Z.of_nat k < size + 1 -> blankAt lines k ->
      (forall j, (j < k)%nat -> ~ blankAt lines j) ->
      plainText (join_nl (firstn k lines)) ->
      extractLead lines size
      = Some {| lead := join_nl (firstn k lines);
                remainder := join_nl (skipn (S k) lines) |}).
  { intros k Hk Hblank Hfirst Hplain. unfold extractLead.
    rewrite slice_prefix by lia.
    rewrite (leadLoop_first_blank _ k).
    - rewrite firstn_firstn_le by lia.
      apply (proj2 (search_none _ _)) in Hplain. rewrite Hplain. simpl.
      rewrite sliceFrom_suffix.
      assert (Hlen : List.length (firstn k lines) = k).
      { destruct Hblank as [b [Hnth _]].
        assert (k < List.length lines)%nat by (apply nth_error_Some; congruence).
        rewrite length_firstn. lia. }
      rewrite Hlen. reflexivity.
    - apply blankAt_firstn. split; [lia | exact Hblank].
    - intros j Hj Hb. apply blankAt_firstn in Hb. apply (Hfirst j Hj). tauto. }
  split.
  - intros sp. split; [apply Hfwd |].
    intros (k & Hk & Hblank & Hfirst & Hplain & Hlead & Hrem).
    rewrite (Hbwd k Hk Hblank Hfirst Hplain).
    destruct sp as [l r]; simpl in *. subst. reflexivity.
  - intros Hnone. destruct (extractLead lines size) as [sp |] eqn:H; [| reflexivity].
    exfalso. apply Hnone.
    destruct (Hfwd sp eq_refl) as (k & Hk & Hblank & Hfirst & Hplain & _).
    exists k. auto.
Qed.

Lemma C4_extractLead_split_witness :
  let lines := ["one"; "two"; "  "; "four"; "five"; "six"] in
  (forall sp : ISplit,
      extractLead lines 4 = Some sp <->
      exists k : nat,
        Z.of_nat k < 4 + 1
        /\ blankAt lines k
        /\ (forall j, (j < k)%nat -> ~ blankAt lines j)
        /\ plainText (join_nl (firstn k lines))
        /\ lead sp = join_nl (firstn k lines)
        /\ remainder sp = join_nl (skipn (S k) lines))
  /\ ((~ exists k : nat,
          Z.of_nat k < 4 + 1
          /\ blankAt lines k
          /\ (forall j, (j < k)%nat -> ~ blankAt lines j)
          /\ plainText (join_nl (firstn k lines)))
      -> extractLead lines 4 = None).
Proof.
  apply (C4_extractLead_split ["one"; "two"; "  "; "four"; "five"; "six"] 4).
  lia.
Defined.

(** C4, counterexample. With the threshold [-3], [slice(0, -2)] keeps all
    but the last two lines, so a split is returned although there is no
    line, blank or not, among the first [size + 1] lines. *)
Lemma C4_negative_threshold_counterexample :
  let lines := ["a"; ""; "b"; "c"; "d"] in
  let size := -3 in
  extractLead lines size
  = Some {| lead := "a"; remainder := "b" ++ NL ++ "c" ++ NL ++ "d" |}
  /\ ~ (exists k : nat, Z.of_nat k < size + 1 /\ blankAt lines k).
Proof.
  split; [reflexivity |].
  intros [k [Hk _]]. simpl in Hk. lia.
Qed.

(** Scenario D of the specification. *)
Example extractLead_scenario_D :
  extractLead ["one"; "two"; "  "; "four"; "five"; "six"] 4
  = Some {| lead := "one" ++ NL ++ "two";
            remainder := "four" ++ NL ++ "five" ++ NL ++ "six" |}.
Proof. reflexivity. Qed.

Example extractLead_markdown_lead :
  extractLead ["# one"; ""; "three"] 4 = None.
Proof. reflexivity. Qed.

Example extractLead_late_blank :
  extractLead ["a"; "b"; "c"; ""; "e"] 2 = None.
Proof. reflexivity. Qed.

(** ** Occurrences of a tag in concatenated text *)

Lemma app_NL (a b : string) : a ++ NL ++ b = a ++ String nl b.
Proof. reflexivity. Qed.

Lemma prefix_empty_false (pat : string) :
  pat <> "" -> String.prefix pat "" = false.
Proof. destruct pat; [congruence | reflexivity]. Qed.

Lemma prefix_app_nl (pat : string) :
  (forall c, In c (list_ascii_of_string pat) -> c <> nl) ->
  pat <> "" ->
  forall a b, String.prefix pat (a ++ String nl b) = String.prefix pat a.
Proof.
  induction pat as [| c p IH]; intros Hfree Hne a b; [congruence |].
  destruct a as [| d a]; simpl.
  - destruct (ascii_dec c nl) as [-> | _]; [| reflexivity].
    exfalso. apply (Hfree nl); [left |]; reflexivity.
  - destruct (ascii_dec c d); [| reflexivity].
    destruct p as [| c' p'].
    + destruct (a ++ String nl b), a; reflexivity.
    + apply IH; [| discriminate].
      intros x Hx. apply Hfree. right. exact Hx.
Qed.

Lemma countOcc_app_nl (pat : string) :
  (forall c, In c (list_ascii_of_string pat) -> c <> nl) ->
  pat <> "" ->
  forall a b,
    countOcc pat (a ++ NL ++ b) = (countOcc pat a + countOcc pat b)%nat.
Proof.
  intros Hfree Hne a b. rewrite app_NL.
  induction a as [| d a IH].
  - change ("" ++ String nl b) with (String nl b).
    cbn [countOcc].
    change (String nl b) with ("" ++ String nl b) at 1.
    rewrite (prefix_app_nl pat Hfree Hne "" b).
    rewrite prefix_empty_false by exact Hne. reflexivity.
  - change (String d a ++ String nl b) with (String d (a ++ String nl b)).
    cbn [countOcc]. rewrite IH.
    change (String d (a ++ String nl b)) with (String d a ++ String nl b).
    rewrite (prefix_app_nl pat Hfree Hne (String d a) b). lia.
Qed.

Lemma prefix_app_mono (pat : string) :
  forall a b, String.prefix pat a = true -> String.prefix pat (a ++ b) = true.
Proof.
  induction pat as [| c p IH]; intros a b H.
  - destruct (a ++ b); reflexivity.
  - destruct a as [| d a]; simpl in *; [discriminate |].
    destruct (ascii_dec c d); [apply IH; exact H | discriminate].
Qed.

Lemma countOcc_app_ge (pat : string) :
  pat <> "" ->
  forall a b, (countOcc pat a + countOcc pat b <= countOcc pat (a ++ b))%nat.
Proof.
  intros Hne a b. induction a as [| d a IH].
  - change ("" ++ b) with b. cbn [countOcc].
    rewrite prefix_empty_false by exact Hne. lia.
  - change (String d a ++ b) with (String d (a ++ b)).
    cbn [countOcc].
    destruct (String.prefix pat (String d a)) eqn:Hp.
    + change (String d (a ++ b)) with (String d a ++ b).
      rewrite (prefix_app_mono pat _ b Hp). lia.
    + destruct (String.prefix pat (String d (a ++ b))); lia.
Qed.

Lemma trimStart_suffix (s : string) : exists w, s = w ++ trimStart s.
Proof.
  induction s as [| c s [w IH]]; simpl.
  - exists "". reflexivity.
  - destruct (isSpace c).
    + exists (String c w). simpl. f_equal. exact IH.
    + exists "". reflexivity.
Qed.

Lemma trimEnd_prefix (s : string) : exists w, s = trimEnd s ++ w.
Proof.
  induction s as [| c s [w IH]]; simpl.
  - exists "". reflexivity.
  - destruct (trimEnd s) as [| d t] eqn:Ht.
    + destruct (isSpace c).
      * exists (String c s). reflexivity.
      * exists s. reflexivity.
    + exists w. simpl. f_equal. exact IH.
Qed.

Lemma countOcc_trim_zero (pat s : string) :
  pat <> "" -> countOcc pat s = 0%nat -> countOcc pat (trim s) = 0%nat.
Proof.
  intros Hne H. unfold trim.
  destruct (trimStart_suffix s) as [w1 H1].
  destruct (trimEnd_prefix (trimStart s)) as [w2 H2].
  pose proof (countOcc_app_ge pat Hne w1 (trimStart s)) as G1.
  pose proof (countOcc_app_ge pat Hne (trimEnd (trimStart s)) w2) as G2.
  rewrite <- H1 in G1. rewrite <- H2 in G2. lia.
Qed.

Lemma split_nl_nonempty (s : string) : split_nl s <> [].
Proof.
  induction s as [| c s IH]; simpl; [discriminate |].
  destruct (Ascii.eqb c nl); [discriminate |].
  destruct (split_nl s); [congruence | discriminate].
Qed.

Lemma join_nl_cons (x y : string) (ys : list string) :
  join_nl (x :: y :: ys) = x ++ NL ++ join_nl (y :: ys).
Proof. reflexivity. Qed.

Lemma join_split_nl (s : string) : join_nl (split_nl s) = s.
Proof.
  induction s as [| c s IH]; [reflexivity |].
  simpl. destruct (Ascii.eqb c nl) eqn:Hc.
  - apply Ascii.eqb_eq in Hc. subst c.
    destruct (split_nl s) as [| l ls] eqn:Hs; [exfalso; exact (split_nl_nonempty s Hs) |].
    rewrite join_nl_cons. rewrite IH. reflexivity.
  - destruct (split_nl s) as [| l ls] eqn:Hs; [exfalso; exact (split_nl_nonempty s Hs) |].
    rewrite <- IH. destruct ls; reflexivity.
Qed.

Lemma countOcc_join_zero (pat : string) :
  (forall c, In c (list_ascii_of_string pat) -> c <> nl) ->
  pat <> "" ->
  forall ls,
    countOcc pat (join_nl ls) = 0%nat
    <-> Forall (fun l => countOcc pat l = 0%nat) ls.
Proof.
  intros Hfree Hne ls. induction ls as [| x [| y ys] IH].
  - cbn [join_nl String.concat countOcc].
    rewrite prefix_empty_false by exact Hne. split; auto.
  - cbn [join_nl String.concat].
    split; [intros H; constructor; auto | intros H; inversion H; auto].
  - rewrite join_nl_cons, (countOcc_app_nl pat Hfree Hne). split.
    + intros H. constructor; [lia |]. apply IH. lia.
    + intros H. inversion H as [| ? ? Hx Hrest]; subst.
      apply IH in Hrest. lia.
Qed.

Lemma Forall_firstn {A : Type} (P : A -> Prop) (xs : list A) :
  Forall P xs -> forall n, Forall P (firstn n xs).
Proof.
  induction 1 as [| x xs Hx Hxs IH]; intros [| n]; simpl; auto.
Qed.

Lemma Forall_skipn {A : Type} (P : A -> Prop) (xs : list A) :
  Forall P xs -> forall n, Forall P (skipn n xs).
Proof.
  induction 1 as [| x xs Hx Hxs IH]; intros [| n]; simpl; auto.
Qed.

(** ** Properties of the formatter *)

Lemma slice_from_zero {A : Type} (stop : Z) (xs : list A) :
  slice 0 stop xs
  = firstn (Z.to_nat (relIndex (Z.of_nat (List.length xs)) stop)) xs.
Proof.
  unfold slice. replace (relIndex (Z.of_nat (List.length xs)) 0) with 0.
  - rewrite Z.sub_0_r. reflexivity.
  - unfold relIndex. simpl. lia.
Qed.

Lemma extractLead_shape (lines : list string) (size : Z) (sp : ISplit) :
  extractLead lines size = Some sp ->
  exists k : nat,
    lead sp = join_nl (firstn k lines)
    /\ remainder sp = join_nl (skipn (S k) lines).
Proof.
  unfold extractLead. rewrite slice_from_zero.
  set (n := Z.to_nat (relIndex (Z.of_nat (List.length lines)) (size + 1))).
  destruct (leadLoop (firstn n lines)) as [leadLines found] eqn:Hloop.
  destruct found; simpl; [| discriminate].
  destruct (search isMarkdownSpecial (join_nl leadLines) =? -1); [| discriminate].
  intros H. inversion H; subst sp; clear H. simpl.
  destruct (leadLoop_found _ _ Hloop) as (Hpre & Hblank & _).
  apply blankAt_firstn in Hblank. destruct Hblank as [Hk _].
  rewrite firstn_firstn_le in Hpre by lia.
  exists (List.length leadLines). split.
  - rewrite <- Hpre. reflexivity.
  - rewrite sliceFrom_suffix. reflexivity.
Qed.

Lemma signatureDetails_returns (item : SignatureInformation) :
  exists details, result (signatureDetails item) = Returned details.
Proof.
  unfold signatureDetails.
  destruct (truthyDoc (documentation item)).
  - destruct (documentation item) as [[s | k v] |]; try (eexists; reflexivity).
    destruct (String.eqb k "plaintext"); [eexists; reflexivity |].
    destruct (String.eqb k "markdown"); eexists; reflexivity.
  - destruct (parameters item); eexists; reflexivity.
Qed.

Lemma signatureToMarkdown_result (item : SignatureInformation)
    (language : string) (fallback : option Z) (maxLinesBeforeCollapse : Z)
    (details : string) :
  result (signatureDetails item) = Returned details ->
  result (signatureToMarkdown item language fallback maxLinesBeforeCollapse)
  = mapOutcome
      (fun markdown => appendDetails markdown details maxLinesBeforeCollapse)
      (result (labelMarkdown item language fallback)).
Proof.
  intros Hd. unfold signatureToMarkdown.
  rewrite result_bind.
  destruct (result (labelMarkdown item language fallback)); [| reflexivity].
  rewrite result_bind, Hd. reflexivity.
Qed.

Lemma tag_free : forall c, In c (list_ascii_of_string "<details>") -> c <> nl.
Proof.
  intros c H. simpl in H.
  repeat (destruct H as [<- | H]; [discriminate |]). destruct H.
Qed.

Lemma tag_nonempty : "<details>" <> "".
Proof. discriminate. Qed.

Lemma regions_app (a b : string) :
  collapsibleRegions (a ++ NL ++ b)
  = (collapsibleRegions a + collapsibleRegions b)%nat.
Proof. apply (countOcc_app_nl _ tag_free tag_nonempty). Qed.

Lemma appendDetails_regions (markdown details : string) (maxLinesBeforeCollapse : Z) :
  collapsibleRegions markdown = 0%nat ->
  collapsibleRegions details = 0%nat ->
  (trimmedLines details <= maxLinesBeforeCollapse ->
   collapsibleRegions (appendDetails markdown details maxLinesBeforeCollapse)
   = 0%nat)
  /\ (trimmedLines details > maxLinesBeforeCollapse -> details <> "" ->
      collapsibleRegions (appendDetails markdown details maxLinesBeforeCollapse)
      = 1%nat).
Proof.
  intros Hm Hd. unfold appendDetails, trimmedLines. split.
  - intros Hle.
    destruct (String.eqb details ""); simpl negb; cbv iota.
    + change (markdown ++ NL) with (markdown ++ NL ++ "").
      rewrite regions_app. rewrite Hm. reflexivity.
    + destruct (Z.gtb_spec (Z.of_nat (List.length (split_nl (trim details))))
                  maxLinesBeforeCollapse) as [Hgt | _]; [lia |].
      rewrite regions_app. change (NL ++ details) with ("" ++ NL ++ details).
      rewrite regions_app. rewrite Hm, Hd. reflexivity.
  - intros Hgt Hne.
    apply String.eqb_neq in Hne. rewrite Hne. simpl negb. cbv iota.
    destruct (Z.gtb_spec (Z.of_nat (List.length (split_nl (trim details))))
                maxLinesBeforeCollapse) as [_ | Hle]; [| lia].
    rewrite regions_app.
    match goal with
    | |- context [NL ++ ?x] => change (NL ++ x) with ("" ++ NL ++ x)
    end.
    rewrite regions_app, Hm.
    destruct (extractLead (split_nl (trim details)) maxLinesBeforeCollapse)
      as [sp |] eqn:Hsplit.
    + destruct (extractLead_shape _ _ _ Hsplit) as (k & Hlead & Hrem).
      assert (Hlines : Forall (fun l => countOcc "<details>" l = 0%nat)
                         (split_nl (trim details))).
      { apply (countOcc_join_zero _ tag_free tag_nonempty).
        rewrite join_split_nl.
        apply countOcc_trim_zero; [exact tag_nonempty | exact Hd]. }
      assert (Hl : collapsibleRegions (lead sp) = 0%nat).
      { rewrite Hlead. apply (countOcc_join_zero _ tag_free tag_nonempty).
        apply Forall_firstn. exact Hlines. }
      assert (Hr : collapsibleRegions (remainder sp) = 0%nat).
      { rewrite Hrem. apply (countOcc_join_zero _ tag_free tag_nonempty).
        apply Forall_skipn. exact Hlines. }
      rewrite !regions_app. rewrite Hl, Hr. reflexivity.
    + rewrite !regions_app. rewrite Hd. reflexivity.
Qed.

(** C3, as amended. Take a description whose code block and details text
    do not themselves hold the tag [<details>]. If the details text, after
    trimming, has at most [maxLinesBeforeCollapse] lines, the string
    returned by [signatureToMarkdown] holds no collapsible region; if it has
    strictly more lines and the details text is not empty, the returned
    string holds exactly one. The empty details text, which counts as one
    line, is never collapsed, whatever the threshold: the returned string
    is then the code block and one newline. *)
Theorem C3_collapsing_law :
  forall (item : SignatureInformation) (language : string)
         (fallback : option Z) (maxLinesBeforeCollapse : Z)
         (markdown details : string),
    result (labelMarkdown item language fallback) = Returned markdown ->
    result (signatureDetails item) = Returned details ->
    collapsibleRegions markdown = 0%nat ->
    collapsibleRegions details = 0%nat ->
    exists out : string,
      result (signatureToMarkdown item language fallback maxLinesBeforeCollapse)
      = Returned out
      /\ (trimmedLines details <= maxLinesBeforeCollapse ->
          collapsibleRegions out = 0%nat)
      /\ (trimmedLines details > maxLinesBeforeCollapse -> details <> "" ->
          collapsibleRegions out = 1%nat)
      /\ (details = "" ->
          trimmedLines details = 1
          /\ out = markdown ++ NL
          /\ collapsibleRegions out = 0%nat).
Proof.
  intros item language fallback maxL markdown details Hmd Hdet Hm Hd.
  exists (appendDetails markdown details maxL). split.
  - rewrite (signatureToMarkdown_result _ _ _ _ details Hdet), Hmd. reflexivity.
  - destruct (appendDetails_regions markdown details maxL Hm Hd) as [Hle Hgt].
    split; [exact Hle |]. split; [exact Hgt |].
    intros ->. split; [reflexivity |]. split; [reflexivity |].
    unfold appendDetails. simpl negb. cbv iota.
    change (markdown ++ NL) with (markdown ++ NL ++ "").
    rewrite regions_app, Hm. reflexivity.
Qed.

Lemma detailsOf_result (item : SignatureInformation) :
  result (signatureDetails item) = Returned (detailsOf item).
Proof.
  unfold detailsOf. destruct (signatureDetails_returns item) as [d ->].
  reflexivity.
Qed.

Lemma signatureDetails_no_highlight (item : SignatureInformation) :
  existsb isHighlight (trace (signatureDetails item)) = false.
Proof.
  unfold signatureDetails.
  destruct (truthyDoc (documentation item)).
  - destruct (documentation item) as [[s | k v] |]; try reflexivity.
    destruct (String.eqb k "plaintext"); [reflexivity |].
    destruct (String.eqb k "markdown"); reflexivity.
  - destruct (parameters item); reflexivity.
Qed.

(** Without an active parameter the label is rendered as the unmarked code
    block and the highlighter is not called. *)
Lemma labelMarkdown_no_index (item : SignatureInformation) (language : string)
    (fallback : option Z) :
  match activeParameter item with
  | Undefined => fallback
  | Null => None
  | Value a => Some a
  end = None ->
  labelMarkdown item language fallback
  = ([], Returned (codeBlock language (label item))).
Proof.
  intros H. unfold labelMarkdown. rewrite H.
  destruct (parameters item); reflexivity.
Qed.

Lemma labelMarkdown_no_active (item : SignatureInformation) (language : string) :
  (forall a, activeParameter item <> Value a) ->
  labelMarkdown item language None
  = ([], Returned (codeBlock language (label item))).
Proof.
  intros H. apply labelMarkdown_no_index.
  destruct (activeParameter item) as [| | a]; [reflexivity | reflexivity |].
  exfalso. exact (H a eq_refl).
Qed.

Lemma signatureToMarkdown_no_active (item : SignatureInformation)
    (language : string) (maxLinesBeforeCollapse : Z) :
  (forall a, activeParameter item <> Value a) ->
  result (signatureToMarkdown item language None maxLinesBeforeCollapse)
  = Returned (unmarkedMarkdown language maxLinesBeforeCollapse item)
  /\ existsb isHighlight
       (trace (signatureToMarkdown item language None maxLinesBeforeCollapse))
     = false.
Proof.
  intros H. split.
  - rewrite (signatureToMarkdown_result _ _ _ _ _ (detailsOf_result item)).
    rewrite labelMarkdown_no_active by exact H. reflexivity.
  - unfold signatureToMarkdown. rewrite trace_bind.
    rewrite labelMarkdown_no_active by exact H. simpl.
    rewrite trace_bind, detailsOf_result. simpl.
    rewrite app_nil_r. apply signatureDetails_no_highlight.
Qed.

(** An index beyond the length is logged and the unmarked code block of
    the bare label is used. *)
Lemma labelMarkdown_beyond_length (item : SignatureInformation)
    (language : string) (fallback : option Z)
    (ps : list ParameterInformation) (ap : Z) :
  parameters item = Some ps ->
  activeParameter item = Value ap
  \/ (activeParameter item = Undefined /\ fallback = Some ap) ->
  ap > Z.of_nat (List.length ps) ->
  labelMarkdown item language fallback
  = ([ConsoleError wrongActiveMessage],
     Returned (codeBlock language (label item))).
Proof.
  intros Hps Hap Hgt. unfold labelMarkdown. rewrite Hps.
  assert (E : match activeParameter item with
              | Undefined => fallback
              | Null => None
              | Value a => Some a
              end = Some ap).
  { destruct Hap as [-> | [-> ->]]; reflexivity. }
  rewrite E.
  destruct (Z.gtb_spec ap (Z.of_nat (List.length ps))); [reflexivity | lia].
Qed.

(** C2, the failing case. When the active-parameter index equals the
    number of parameters, or is negative, the test [activeParameter >
    item.parameters.length] does not hold, [item.parameters[activeParameter]]
    is [undefined], and [signatureToMarkdown] throws a [TypeError]; nothing
    is logged and no code block is returned. *)
Theorem C2_index_at_length_throws :
  forall (item : SignatureInformation) (language : string)
         (fallback : option Z) (maxLinesBeforeCollapse : Z)
         (ps : list ParameterInformation) (ap : Z),
    parameters item = Some ps ->
    activeParameter item = Value ap
    \/ (activeParameter item = Undefined /\ fallback = Some ap) ->
    ap = Z.of_nat (List.length ps) \/ ap < 0 ->
    signatureToMarkdown item language fallback maxLinesBeforeCollapse
    = ([], Threw (TypeError
                    "Cannot read properties of undefined (reading 'label')")).
Proof.
  intros item language fallback maxL ps ap Hps Hap Hout.
  unfold signatureToMarkdown, labelMarkdown. rewrite Hps.
  assert (E : match activeParameter item with
              | Undefined => fallback
              | Null => None
              | Value a => Some a
              end = Some ap).
  { destruct Hap as [-> | [-> ->]]; reflexivity. }
  rewrite E.
  destruct (Z.gtb_spec ap (Z.of_nat (List.length ps))) as [Hgt | _]; [lia |].
  assert (Hat : at_ ps ap = None).
  { unfold at_. destruct (Z.ltb_spec ap 0) as [_ | Hge]; [reflexivity |].
    apply nth_error_None. lia. }
  rewrite Hat. reflexivity.
Qed.

(** C10, as amended. For a description that has a parameters list, no
    documentation of its own and no documented parameter, the details text
    is two newline characters; with a threshold of at least one line,
    [signatureToMarkdown] returns the code block followed by four newline
    characters (and throws exactly when rendering the code block throws).
    Without an active parameter the code block is the unmarked one. *)
Theorem C10_undocumented_parameters :
  forall (item : SignatureInformation) (language : string)
         (fallback : option Z) (maxLinesBeforeCollapse : Z)
         (ps : list ParameterInformation),
    parameters item = Some ps ->
    truthyDoc (documentation item) = false ->
    (forall p, In p ps -> truthyDoc (pdocumentation p) = false) ->
    1 <= maxLinesBeforeCollapse ->
    result (signatureDetails item) = Returned (NL ++ NL)
    /\ result (signatureToMarkdown item language fallback maxLinesBeforeCollapse)
       = mapOutcome (fun markdown => markdown ++ NL ++ NL ++ NL ++ NL)
           (result (labelMarkdown item language fallback))
    /\ (activeParameter item = Undefined -> fallback = None ->
        result (signatureToMarkdown item language fallback
                  maxLinesBeforeCollapse)
        = Returned (codeBlock language (label item) ++ NL ++ NL ++ NL ++ NL))
    /\ (activeParameter item = Null ->
        result (signatureToMarkdown item language fallback
                  maxLinesBeforeCollapse)
        = Returned (codeBlock language (label item) ++ NL ++ NL ++ NL ++ NL)).
Proof.
  intros item language fallback maxL ps Hps Hdoc Hpdoc Hmax.
  assert (Hfilter :
    filter (fun parameter => truthyDoc (pdocumentation parameter)) ps = []).
  { clear Hps. induction ps as [| p ps IH]; [reflexivity |].
    simpl. rewrite (Hpdoc p (or_introl eq_refl)).
    apply IH. intros q Hq. apply Hpdoc. right. exact Hq. }
  assert (Hdet : result (signatureDetails item) = Returned (NL ++ NL)).
  { unfold signatureDetails. rewrite Hdoc, Hps. unfold parameterDetails.
    rewrite Hfilter. reflexivity. }
  assert (Happ : forall markdown,
    appendDetails markdown (NL ++ NL) maxL = markdown ++ NL ++ NL ++ NL ++ NL).
  { intros markdown. unfold appendDetails.
    change (String.eqb (NL ++ NL) "") with false. simpl negb. cbv iota.
    change (split_nl (trim (NL ++ NL))) with [""].
    destruct (Z.gtb_spec (Z.of_nat (List.length [""])) maxL) as [Hgt | _].
    - simpl in Hgt. lia.
    - reflexivity. }
  split; [exact Hdet |]. split; [| split].
  - rewrite (signatureToMarkdown_result _ _ _ _ _ Hdet).
    destruct (result (labelMarkdown item language fallback)); simpl;
      [rewrite Happ |]; reflexivity.
  - intros Hnone ->.
    rewrite (signatureToMarkdown_result _ _ _ _ _ Hdet).
    rewrite labelMarkdown_no_index by (rewrite Hnone; reflexivity). simpl.
    rewrite Happ. reflexivity.
  - intros Hnull.
    rewrite (signatureToMarkdown_result _ _ _ _ _ Hdet).
    rewrite labelMarkdown_no_index by (rewrite Hnull; reflexivity). simpl.
    rewrite Happ. reflexivity.
Qed.

Lemma formatEach_no_active (self : SignatureCM) (language : string)
    (items : list SignatureInformation) :
  (forall item, In item items -> forall a, activeParameter item <> Value a) ->
  result (formatEach self language items)
  = Returned (map (unmarkedMarkdown language (maxLines self)) items)
  /\ existsb isHighlight (trace (formatEach self language items)) = false.
Proof.
  induction items as [| item rest IH]; intros Hnone; [split; reflexivity |].
  destruct (signatureToMarkdown_no_active item language (maxLines self)
              (Hnone item (or_introl eq_refl))) as [Hr Ht].
  destruct IH as [IHr IHt]; [intros i Hi; apply Hnone; right; exact Hi |].
  cbn [formatEach]. split.
  - rewrite result_bind, Hr, result_bind, IHr. reflexivity.
  - rewrite trace_bind, Hr, trace_bind, IHr. simpl.
    rewrite app_nil_r, existsb_app, Ht, IHt. reflexivity.
Qed.

Lemma formatEach_results (self : SignatureCM) (language : string)
    (items : list SignatureInformation) (outs : list string) :
  Forall2 (fun item out =>
             result (signatureToMarkdown item language None (maxLines self))
             = Returned out) items outs ->
  result (formatEach self language items) = Returned outs.
Proof.
  induction 1 as [| item out items outs Hout _ IH]; [reflexivity |].
  cbn [formatEach]. rewrite result_bind, Hout, result_bind, IH. reflexivity.
Qed.

(** C8, as amended. When the active-signature index is absent or is at
    least the number of signatures, [get_markup_for_signature_help] formats
    every description, without the active parameter of the response, and
    joins the results with a blank line. Descriptions that carry no active
    parameter of their own are then rendered as the unmarked code block
    with the details, and the highlighter is not called. *)
Theorem C8_all_descriptions_without_fallback :
  forall (self : SignatureCM) (response : SignatureHelp) (language : string),
    activeSignature response = None
    \/ (exists a, activeSignature response = Some a
                  /\ a >= Z.of_nat (List.length (signatures response))) ->
    let m := get_markup_for_signature_help self response language in
    (forall outs,
        Forall2 (fun item out =>
                   result (signatureToMarkdown item language None
                             (maxLines self))
                   = Returned out) (signatures response) outs ->
        result m
        = Returned {| kind := "markdown";
                      value := String.concat (NL ++ NL) outs |})
    /\ ((forall item, In item (signatures response) ->
                      forall a, activeParameter item <> Value a) ->
        result m
        = Returned {| kind := "markdown";
                      value := String.concat (NL ++ NL)
                                 (map (unmarkedMarkdown language (maxLines self))
                                      (signatures response)) |}
        /\ existsb isHighlight (trace m) = false).
Proof.
  intros self response language Hactive m.
  assert (Hm : result m = result (formatAll self response language)
               /\ existsb isHighlight (trace m)
                  = existsb isHighlight
                      (trace (formatAll self response language))).
  { subst m. unfold get_markup_for_signature_help.
    destruct Hactive as [-> | [a [-> Hge]]]; [split; reflexivity |].
    destruct (Z.geb_spec a (Z.of_nat (List.length (signatures response))))
      as [_ | Hlt]; [| lia].
    rewrite result_bind, trace_bind. split; reflexivity. }
  destruct Hm as [Hres Htr]. rewrite Hres, Htr. unfold formatAll. split.
  - intros outs Houts.
    rewrite result_bind, (formatEach_results _ _ _ _ Houts). reflexivity.
  - intros Hnone.
    destruct (formatEach_no_active self language (signatures response) Hnone)
      as [Hr Ht].
    split.
    + rewrite result_bind, Hr. reflexivity.
    + rewrite trace_bind, Hr. simpl. rewrite app_nil_r. exact Ht.
Qed.

(** ** Properties of the response handling *)

(** C1. A response with at least one signature that arrives when the
    cursor is on another line than the one recorded at the request, or on
    the same line before the recorded character, makes [handleSignature]
    hide and remove the tooltip; [showOrCreate] is not called and no popup
    is on display afterwards, whatever the response holds. *)
Theorem C1_stale_response_is_removed :
  forall (self : SignatureCM) (help : SignatureHelp)
         (position_at_request : IRootPosition)
         (display_position : option IEditorPosition),
    signatures help <> [] ->
    line (get_cursor_position self) <> line position_at_request
    \/ (line (get_cursor_position self) = line position_at_request
        /\ ch (get_cursor_position self) < ch position_at_request) ->
    let m := handleSignature self (RHelp help) position_at_request
               display_position in
    result m = Returned tt
    /\ tooltipCalls m = [TooltipHide; TooltipRemove]
    /\ existsb isShowOrCreate (trace m) = false
    /\ forall t : Tooltip, runTooltip t (trace m) = None.
Proof.
  intros self help par dp Hne Hstale m.
  assert (Hstale' :
    negb (line par =? line (get_cursor_position self))
    || (ch (get_cursor_position self) <? ch par) = true).
  { destruct Hstale as [Hl | [Hl Hc]].
    - apply orb_true_iff; left. apply negb_true_iff, Z.eqb_neq. congruence.
    - apply orb_true_iff; right. apply Z.ltb_lt. exact Hc. }
  subst m. unfold handleSignature.
  destruct (signatures help) as [| s0 rest] eqn:Hs; [congruence |].
  destruct (signatureCharacter self) as [p |]; simpl.
  - rewrite Hstale'. simpl. repeat split; reflexivity.
  - repeat split; reflexivity.
Qed.

(** C6. A [null] response makes exactly one call on the tooltip,
    [remove]; an [undefined] response makes none, so the tooltip stays as
    it was; a response with an empty list of signatures hides and removes
    it. In each case nothing is shown, and a tooltip that was not on
    display stays so. *)
Theorem C6_non_signature_outcomes :
  forall (self : SignatureCM) (position_at_request : IRootPosition)
         (display_position : option IEditorPosition)
         (active fallback : option Z) (t : Tooltip),
    let onNull := handleSignature self RNull position_at_request
                    display_position in
    let onUndefined := handleSignature self RUndefined position_at_request
                         display_position in
    let onEmpty :=
      handleSignature self
        (RHelp {| signatures := [];
                  activeSignature := active;
                  helpActiveParameter := fallback |})
        position_at_request display_position in
    (tooltipCalls onNull = [TooltipRemove]
     /\ result onNull = Returned tt
     /\ runTooltip t (trace onNull) = None)
    /\ (tooltipCalls onUndefined = []
        /\ result onUndefined = Returned tt
        /\ runTooltip t (trace onUndefined) = t)
    /\ (tooltipCalls onEmpty = [TooltipHide; TooltipRemove]
        /\ result onEmpty = Returned tt
        /\ runTooltip t (trace onEmpty) = None).
Proof.
  intros self par dp active fallback t.
  unfold handleSignature; simpl.
  rewrite orb_true_r; simpl.
  repeat split; reflexivity.
Qed.

(** C9. For a [labelExtra] that is none of ['detail'], ['type'],
    ['source'] and ['auto'], [getExtraInfo] warns once, naming the value,
    and returns the empty string; it does not throw. *)
Theorem C9_unrecognized_labelExtra :
  forall (labelExtra : string) (item : option CompletionItem),
    labelExtra <> "detail" -> labelExtra <> "type" ->
    labelExtra <> "source" -> labelExtra <> "auto" ->
    getExtraInfo labelExtra item
    = ([ConsoleWarn labelExtraMessage labelExtra], Returned (Some "")).
Proof.
  intros labelExtra item Hd Ht Hs Ha.
  unfold getExtraInfo.
  apply String.eqb_neq in Hd, Ht, Hs, Ha.
  rewrite Hd, Ht, Hs, Ha. reflexivity.
Qed.

(** *** Formatting makes no call on the tooltip *)

Lemma tooltipCalls_bind {A B : Type} (m : M A) (f : A -> M B) :
  tooltipCalls (bind m f) =
  match result m with
  | Returned a => (tooltipCalls m ++ tooltipCalls (f a))%list
  | Threw _ => tooltipCalls m
  end.
Proof.
  unfold tooltipCalls. rewrite trace_bind.
  destruct (result m); [apply filter_app | reflexivity].
Qed.

Lemma silent_bind {A B : Type} (m : M A) (f : A -> M B) :
  silent m -> (forall a, silent (f a)) -> silent (bind m f).
Proof.
  unfold silent. intros Hm Hf. rewrite tooltipCalls_bind.
  destruct (result m); [rewrite Hm, Hf; reflexivity | exact Hm].
Qed.

Lemma silent_ret {A : Type} (a : A) : silent (ret a).
Proof. reflexivity. Qed.

Lemma silent_signatureToMarkdown (item : SignatureInformation)
    (language : string) (fallback : option Z) (maxLinesBeforeCollapse : Z) :
  silent (signatureToMarkdown item language fallback maxLinesBeforeCollapse).
Proof.
  unfold signatureToMarkdown.
  apply silent_bind; [| intros markdown; apply silent_bind;
                        [| intros; apply silent_ret]].
  - unfold labelMarkdown.
    destruct (parameters item) as [ps |]; [| reflexivity].
    destruct (match activeParameter item with
              | Undefined => fallback
              | Null => None
              | Value a => Some a
              end) as [ap |]; [| reflexivity].
    destruct (ap >? Z.of_nat (List.length ps)); [reflexivity |].
    destruct (at_ ps ap); reflexivity.
  - unfold signatureDetails.
    destruct (truthyDoc (documentation item)).
    + destruct (documentation item) as [[s | k v] |]; try reflexivity.
      destruct (String.eqb k "plaintext"); [reflexivity |].
      destruct (String.eqb k "markdown"); reflexivity.
    + destruct (parameters item); reflexivity.
Qed.

Lemma silent_formatEach (self : SignatureCM) (language : string)
    (items : list SignatureInformation) :
  silent (formatEach self language items).
Proof.
  induction items as [| item rest IH]; [reflexivity |].
  cbn [formatEach]. apply silent_bind; [apply silent_signatureToMarkdown |].
  intros markdown. apply silent_bind; [exact IH | intros; apply silent_ret].
Qed.

Lemma silent_get_markup (self : SignatureCM) (response : SignatureHelp)
    (language : string) :
  silent (get_markup_for_signature_help self response language).
Proof.
  assert (Hall : silent (formatAll self response language)).
  { unfold formatAll. apply silent_bind; [apply silent_formatEach |].
    intros; apply silent_ret. }
  unfold get_markup_for_signature_help.
  destruct (activeSignature response) as [a |]; [| exact Hall].
  destruct (a >=? Z.of_nat (List.length (signatures response))).
  - apply silent_bind; [reflexivity | intros _; exact Hall].
  - destruct (at_ (signatures response) a); [| reflexivity].
    apply silent_bind; [apply silent_signatureToMarkdown |].
    intros; apply silent_ret.
Qed.

(** *** An accepted response *)

(** A response with signatures that passes the checks on cursor and focus
    is shown exactly when formatting it returns; when formatting throws,
    the exception leaves [handleSignature] and the tooltip, hidden on
    entry, is not shown again. *)
Lemma handleSignature_accepted :
  forall (self : SignatureCM) (help : SignatureHelp)
         (position_at_request : IRootPosition)
         (display_position : option IEditorPosition),
    signatureCharacter self <> None ->
    signatures help <> [] ->
    line (get_cursor_position self) = line position_at_request ->
    ch position_at_request <= ch (get_cursor_position self) ->
    hasFocus (get_cm_editor self (get_cursor_position self)) = true ->
    let root_position := get_cursor_position self in
    let cm_editor := get_cm_editor self root_position in
    let editor_position := root_position_to_editor self root_position in
    let language := get_language_at self editor_position cm_editor in
    let formatted := get_markup_for_signature_help self help language in
    let m := handleSignature self (RHelp help) position_at_request
               display_position in
    match result formatted with
    | Returned markup =>
        result m = Returned tt
        /\ tooltipCalls m
           = [TooltipHide;
              TooltipShowOrCreate markup
                match display_position with
                | Some p => p
                | None => anchorFromTrigger self cm_editor editor_position
                end]
    | Threw e =>
        result m = Threw e /\ tooltipCalls m = [TooltipHide]
    end.
Proof.
  intros self help par dp Hset Hsigs Hline Hch Hfocus
         root_position cm_editor editor_position language formatted m.
  subst m. unfold handleSignature.
  destruct (signatureCharacter self) as [sc |]; [| congruence].
  destruct (signatures help) as [| s0 rest] eqn:Hs; [congruence |].
  cbn [isSet negb orb List.length Nat.eqb].
  fold root_position in Hline, Hch, Hfocus |- *.
  replace (line par =? line root_position) with true
    by (symmetry; apply Z.eqb_eq; lia).
  replace (ch root_position <? ch par) with false
    by (symmetry; apply Z.ltb_ge; lia).
  cbn [negb orb]. fold cm_editor in Hfocus |- *. rewrite Hfocus. cbn [negb].
  fold editor_position. fold language. fold formatted.
  pose proof (silent_get_markup self help language) as Hsilent.
  fold formatted in Hsilent. unfold silent, tooltipCalls, trace in Hsilent.
  unfold tooltipCalls, trace, result.
  destruct formatted as [t [markup | e]]; simpl in Hsilent |- *.
  - rewrite filter_app, Hsilent. split; reflexivity.
  - rewrite Hsilent. split; reflexivity.
Qed.

(** *** The anchor of the tooltip (C7) *)

Lemma mathMax_spec (xs : list Z) :
  xs <> [] ->
  exists m, mathMax xs = Num m /\ In m xs /\ forall x, In x xs -> x <= m.
Proof.
  induction xs as [| x rest IH]; intros Hne; [congruence |].
  destruct rest as [| y rest'].
  - exists x. simpl. split; [reflexivity |]. split; [auto |].
    intros z [<- | []]. lia.
  - destruct IH as (m & Hm & Hin & Hmax); [discriminate |].
    cbn [mathMax] in *. rewrite Hm.
    exists (Z.max x m). split; [reflexivity |]. split.
    + destruct (Z.max_spec x m) as [[_ ->] | [_ ->]]; [right; exact Hin | left; reflexivity].
    + intros z [<- | Hz]; [lia |]. specialize (Hmax z Hz). lia.
Qed.

Lemma lastIndexOfFrom_lower_bound (pat s : string) :
  forall i r, lastIndexOfFrom pat s i = Some r -> i <= r.
Proof.
  induction s as [| c s IH]; intros i r; cbn [lastIndexOfFrom].
  - destruct (String.prefix pat ""); intros E; inversion E; lia.
  - destruct (lastIndexOfFrom pat s (i + 1)) as [r' |] eqn:Hr.
    + intros E; inversion E; subst. specialize (IH (i + 1) r Hr). lia.
    + destruct (String.prefix pat (String c s)); intros E; inversion E; lia.
Qed.

Lemma lastIndexOf_lower_bound (pat s : string) : -1 <= lastIndexOf pat s.
Proof.
  unfold lastIndexOf.
  destruct (lastIndexOfFrom pat s 0) as [r |] eqn:Hr; [| lia].
  apply lastIndexOfFrom_lower_bound in Hr. lia.
Qed.

(** A popup that is on display hands its anchor to the request. *)
Lemma afterChange_while_shown :
  forall (self : SignatureCM) (markup : MarkupContent)
         (anchor : IEditorPosition) (last_character : string)
         (root_position : IRootPosition),
    isReady self = true -> signatureHelpProvider self = true ->
    result (_afterChange self (Some (markup, anchor)) last_character
              root_position)
    = Returned (set_signatureCharacter self root_position,
                Some {| position_at_request := root_position;
                        previousPosition := Some anchor |}).
Proof.
  intros self markup anchor c root Hready Hprovider.
  unfold _afterChange, requestSignature. rewrite Hready, Hprovider.
  cbn [isShown isSet]. rewrite orb_true_r. cbn [negb andb].
  destruct (includes c (closeCharacters self)); reflexivity.
Qed.

(** With a configured trigger character that occurs before the cursor, the
    anchor is the position of the last such occurrence. *)
Lemma anchorFromTrigger_last_occurrence :
  forall (self : SignatureCM) (cm_editor : CmEditor)
         (editor_position : IEditorPosition),
    let content := getValue cm_editor in
    let lines := split_nl content in
    let subset :=
      substring0 (offsetAtPosition (cm_to_ce editor_position) lines) content in
    (exists character, In character (signatureCharacters self)
                       /\ lastIndexOf character subset <> -1) ->
    exists m character,
      In character (signatureCharacters self)
      /\ lastIndexOf character subset = m
      /\ (forall other, In other (signatureCharacters self) ->
                        lastIndexOf other subset <= m)
      /\ anchorFromTrigger self cm_editor editor_position
         = ce_to_cm (positionAtOffset (Num m) lines).
Proof.
  intros self cm_editor editor_position content lines subset
         (character & Hin & Hfound).
  destruct (mathMax_spec
              (map (fun c => lastIndexOf c subset) (signatureCharacters self)))
    as (m & Hm & Hinm & Hmax).
  { destruct (signatureCharacters self); [destruct Hin | discriminate]. }
  apply in_map_iff in Hinm. destruct Hinm as (best & Hbest & Hinbest).
  exists m, best. split; [exact Hinbest |]. split; [exact Hbest |]. split.
  - intros other Hother. apply Hmax. apply in_map_iff. exists other. auto.
  - unfold anchorFromTrigger. fold content. fold lines. fold subset.
    rewrite Hm. unfold strictNeq.
    assert (Hne : m <> -1).
    { assert (Hle : lastIndexOf character subset <= m).
      { apply Hmax. apply in_map_iff. exists character. auto. }
      pose proof (lastIndexOf_lower_bound character subset) as Hlow.
      lia. }
    apply Z.eqb_neq in Hne. rewrite Hne. reflexivity.
Qed.

(** With a non-empty set of trigger characters none of which occurs before
    the cursor, the anchor is the position of the cursor. *)
Lemma anchorFromTrigger_no_occurrence :
  forall (self : SignatureCM) (cm_editor : CmEditor)
         (editor_position : IEditorPosition),
    signatureCharacters self <> [] ->
    (forall character, In character (signatureCharacters self) ->
       lastIndexOf character
         (substring0
            (offsetAtPosition (cm_to_ce editor_position)
               (split_nl (getValue cm_editor)))
            (getValue cm_editor)) = -1) ->
    anchorFromTrigger self cm_editor editor_position = editor_position.
Proof.
  intros self cm_editor editor_position Hne Hall.
  unfold anchorFromTrigger.
  match goal with
  | |- context [mathMax ?xs] =>
      destruct (mathMax_spec xs) as (m & Hm & Hinm & _);
      [intros E; apply map_eq_nil in E; exact (Hne E) |]
  end.
  rewrite Hm. apply in_map_iff in Hinm. destruct Hinm as (c & Hc & Hin).
  rewrite (Hall c Hin) in Hc. subst m. reflexivity.
Qed.

(** With an empty set of trigger characters [Math.max()] is [-Infinity],
    which is not [-1]: the anchor is computed from [-Infinity] and the
    position of the cursor is not used. *)
Lemma anchorFromTrigger_empty_set :
  forall (self : SignatureCM) (cm_editor : CmEditor)
         (editor_position : IEditorPosition),
    signatureCharacters self = [] ->
    anchorFromTrigger self cm_editor editor_position
    = ce_to_cm (positionAtOffset NegInfinity (split_nl (getValue cm_editor))).
Proof.
  intros self cm_editor editor_position Hempty.
  unfold anchorFromTrigger. rewrite Hempty. reflexivity.
Qed.

(** ** The anchor of an accepted response (C7) *)

Lemma readAfter_cached (characters : list string) :
  characters <> [] ->
  forall between last, readAfter (Some characters) between last = characters.
Proof.
  intros Hne between. induction between as [| c rest IH]; intros last.
  - destruct characters; [congruence | reflexivity].
  - cbn [readAfter]. destruct characters; [congruence |]. apply IH.
Qed.

Lemma readLater_stable (earlier later : list string) :
  readLater earlier later -> earlier <> [] -> later = earlier.
Proof.
  intros (cached & first & between & last & He & Hl) Hne. subst.
  unfold signatureCharactersGetter in *.
  destruct cached as [[| c cs] |]; cbn [fst snd] in *;
    try (apply readAfter_cached; exact Hne).
Qed.

Lemma issued_anchor (self : SignatureCM) (tooltip : Tooltip)
    (request : PendingRequest) :
  issued self tooltip request ->
  match tooltip with
  | Some (_, anchor) => previousPosition request = Some anchor
  | None => previousPosition request = None /\ signatureCharacters self <> []
  end.
Proof.
  intros [(c & root & self' & H) | (self' & H)].
  - unfold _afterChange, requestSignature in H.
    destruct tooltip as [[shown anchor] |]; cbn [isShown isSet] in H.
    + rewrite orb_true_r in H. cbn [negb] in H.
      rewrite result_bind in H.
      destruct (includes c (closeCharacters self)); cbn in H;
        destruct (negb (isReady self && signatureHelpProvider self));
        inversion H; reflexivity.
    + rewrite orb_false_r in H. cbn in H.
      destruct (includes c (signatureCharacters self)) eqn:Hin; cbn in H;
        [| discriminate].
      destruct (negb (isReady self && signatureHelpProvider self));
        inversion H. split; [reflexivity |].
      intros E. rewrite E in Hin. discriminate.
  - unfold onCursorActivity, requestSignature in H.
    destruct tooltip as [[shown anchor] |]; [| discriminate].
    destruct ((eline (root_position_to_editor self (get_cursor_position self))
               =? eline anchor)
              && jsLt (ech (root_position_to_editor self
                              (get_cursor_position self))) (ech anchor));
      [discriminate |].
    destruct (negb (isReady self && signatureHelpProvider self));
      inversion H; reflexivity.
Qed.

Lemma anchorFromTrigger_computed (self : SignatureCM) (cm_editor : CmEditor)
    (editor_position : IEditorPosition) :
  signatureCharacters self <> [] ->
  let lines := split_nl (getValue cm_editor) in
  let subset :=
    substring0 (offsetAtPosition (cm_to_ce editor_position) lines)
      (getValue cm_editor) in
  exists m character,
    In character (signatureCharacters self)
    /\ lastIndexOf character subset = m
    /\ (forall other, In other (signatureCharacters self) ->
                      lastIndexOf other subset <= m)
    /\ anchorFromTrigger self cm_editor editor_position
       = if m =? -1 then editor_position
         else ce_to_cm (positionAtOffset (Num m) lines).
Proof.
  intros Hne lines subset.
  destruct (mathMax_spec
              (map (fun c => lastIndexOf c subset) (signatureCharacters self)))
    as (m & Hm & Hinm & Hmax).
  { intros E. apply map_eq_nil in E. exact (Hne E). }
  apply in_map_iff in Hinm. destruct Hinm as (best & Hbest & Hinbest).
  exists m, best. split; [exact Hinbest |]. split; [exact Hbest |]. split.
  - intros other Hother. apply Hmax. apply in_map_iff. exists other. auto.
  - unfold anchorFromTrigger. fold lines. fold subset. rewrite Hm.
    unfold strictNeq. destruct (m =? -1); reflexivity.
Qed.

(** C7. Take a request sent by [_afterChange] or [onCursorActivity], and a
    response with signatures that is handled later, when the cursor is on
    the line of the request at or after its character and the editor has
    focus; the trigger characters are then a later reading of the getter.
    Whenever formatting returns, the response is shown, and: if the popup
    was on display when the request was sent, it is shown at the anchor of
    that popup; if none was, it is shown at the position of the last
    occurrence, in the text before the cursor, of any trigger character
    and, when no trigger character occurs there, at the position of the
    cursor. *)
Theorem C7_anchor_of_accepted_response :
  forall (self : SignatureCM) (tooltip : Tooltip) (request : PendingRequest)
         (later : SignatureCM) (help : SignatureHelp),
    issued self tooltip request ->
    readLater (signatureCharacters self) (signatureCharacters later) ->
    signatureCharacter later <> None ->
    signatures help <> [] ->
    line (get_cursor_position later) = line (position_at_request request) ->
    ch (position_at_request request) <= ch (get_cursor_position later) ->
    hasFocus (get_cm_editor later (get_cursor_position later)) = true ->
    let root_position := get_cursor_position later in
    let cm_editor := get_cm_editor later root_position in
    let editor_position := root_position_to_editor later root_position in
    let language := get_language_at later editor_position cm_editor in
    let lines := split_nl (getValue cm_editor) in
    let subset :=
      substring0 (offsetAtPosition (cm_to_ce editor_position) lines)
        (getValue cm_editor) in
    forall markup,
      result (get_markup_for_signature_help later help language)
      = Returned markup ->
      exists anchor,
        tooltipCalls (settle later request (RHelp help))
        = [TooltipHide; TooltipShowOrCreate markup anchor]
        /\ (forall shown previous,
               tooltip = Some (shown, previous) -> anchor = previous)
        /\ (tooltip = None ->
            ((exists character,
                 In character (signatureCharacters later)
                 /\ lastIndexOf character subset <> -1) ->
             exists m character,
               In character (signatureCharacters later)
               /\ lastIndexOf character subset = m
               /\ (forall other, In other (signatureCharacters later) ->
                                 lastIndexOf other subset <= m)
               /\ anchor = ce_to_cm (positionAtOffset (Num m) lines))
            /\ ((forall character,
                    In character (signatureCharacters later) ->
                    lastIndexOf character subset = -1) ->
                anchor = editor_position)).
Proof.
  intros self tooltip request later help Hissued Hread Hset Hsigs Hline Hch
         Hfocus root_position cm_editor editor_position language lines subset
         markup Hformat.
  pose proof (issued_anchor _ _ _ Hissued) as Hprev.
  pose proof (handleSignature_accepted later help (position_at_request request)
                (previousPosition request) Hset Hsigs Hline Hch Hfocus) as H.
  cbv zeta in H.
  fold root_position cm_editor editor_position language in H.
  rewrite Hformat in H. destruct H as [_ Hcalls].
  unfold settle.
  destruct tooltip as [[shown previous] |].
  - rewrite Hprev in Hcalls |- *. exists previous.
    split; [exact Hcalls |]. split.
    + intros shown' previous' E. inversion E; subst. reflexivity.
    + intros E. discriminate.
  - destruct Hprev as [Hnone Hne]. rewrite Hnone in Hcalls |- *.
    exists (anchorFromTrigger later cm_editor editor_position).
    split; [exact Hcalls |]. split; [intros shown previous E; discriminate |].
    intros _.
    assert (Hne' : signatureCharacters later <> []).
    { rewrite (readLater_stable _ _ Hread Hne). exact Hne. }
    destruct (anchorFromTrigger_computed later cm_editor editor_position Hne')
      as (m & best & Hin & Hbest & Hmax & Hanchor).
    fold lines subset in Hbest, Hmax, Hanchor.
    split.
    + intros (character & Hc & Hfound).
      exists m, best. split; [exact Hin |]. split; [exact Hbest |].
      split; [exact Hmax |].
      rewrite Hanchor.
      destruct (Z.eqb_spec m (-1)) as [E | _]; [| reflexivity].
      exfalso. specialize (Hmax character Hc).
      pose proof (lastIndexOf_lower_bound character subset). lia.
    + intros Hnever. rewrite Hanchor.
      rewrite <- Hbest, (Hnever best Hin). reflexivity.
Qed.

(** ** Further properties of [extractLead] *)

Lemma nth_error_split_at {A : Type} (xs : list A) :
  forall k b, nth_error xs k = Some b ->
    xs = (firstn k xs ++ b :: skipn (S k) xs)%list.
Proof.
  induction xs as [| x xs IH]; intros [| k] b H; simpl in H; try discriminate.
  - inversion H; subst. reflexivity.
  - simpl. f_equal. apply IH. exact H.
Qed.

Lemma extractLead_first_blank (lines : list string) (size : Z) (sp : ISplit) :
  extractLead lines size = Some sp ->
  exists k : nat,
    blankAt lines k
    /\ (forall j, (j < k)%nat -> ~ blankAt lines j)
    /\ plainText (join_nl (firstn k lines))
    /\ lead sp = join_nl (firstn k lines)
    /\ remainder sp = join_nl (skipn (S k) lines).
Proof.
  unfold extractLead. rewrite slice_from_zero.
  set (n := Z.to_nat (relIndex (Z.of_nat (List.length lines)) (size + 1))).
  destruct (leadLoop (firstn n lines)) as [leadLines found] eqn:Hloop.
  destruct found; simpl; [| discriminate].
  destruct (search isMarkdownSpecial (join_nl leadLines) =? -1) eqn:Hsearch;
    [| discriminate].
  intros H. inversion H; subst sp; clear H. simpl.
  destruct (leadLoop_found _ _ Hloop) as (Hpre & Hblank & Hfirst).
  apply blankAt_firstn in Hblank. destruct Hblank as [Hk Hblank].
  rewrite firstn_firstn_le in Hpre by lia.
  exists (List.length leadLines).
  split; [exact Hblank |]. split.
  - intros j Hj Hb. apply (Hfirst j Hj). apply blankAt_firstn.
    split; [lia | exact Hb].
  - rewrite <- Hpre. split.
    + refine (proj1 (search_none _ _) _). apply Z.eqb_eq. exact Hsearch.
    + split; [reflexivity |]. rewrite sliceFrom_suffix. reflexivity.
Qed.

(** Whatever the threshold, also a negative one, a lead that is returned
    holds none of the characters [\ * # [ ] < > _]. *)
Theorem extractLead_lead_is_plain :
  forall (lines : list string) (size : Z) (sp : ISplit),
    extractLead lines size = Some sp -> plainText (lead sp).
Proof.
  intros lines size sp H.
  destruct (extractLead_first_blank _ _ _ H) as (k & _ & _ & Hplain & -> & _).
  exact Hplain.
Qed.

(** A split loses no line but the blank one: the lines are the lines of
    the lead, none of them blank, then one blank line, then the lines of
    the remainder. *)
Theorem extractLead_reassembles :
  forall (lines : list string) (size : Z) (sp : ISplit),
    extractLead lines size = Some sp ->
    exists (leadLines : list string) (blank : string) (rest : list string),
      lines = (leadLines ++ blank :: rest)%list
      /\ trim blank = ""
      /\ Forall (fun l => trim l <> "") leadLines
      /\ lead sp = join_nl leadLines
      /\ remainder sp = join_nl rest.
Proof.
  intros lines size sp H.
  destruct (extractLead_first_blank _ _ _ H)
    as (k & [b [Hnth Hb]] & Hfirst & _ & Hlead & Hrem).
  exists (firstn k lines), b, (skipn (S k) lines).
  split; [apply nth_error_split_at; exact Hnth |].
  split; [exact Hb |]. split; [| split; assumption].
  apply Forall_forall. intros l Hl Hblank.
  apply In_nth_error in Hl. destruct Hl as [j Hj].
  assert (Hjk : (j < k)%nat).
  { assert (Hlen : (j < List.length (firstn k lines))%nat)
      by (apply nth_error_Some; congruence).
    rewrite length_firstn in Hlen. lia. }
  apply (Hfirst j Hjk). exists l. split; [| exact Hblank].
  rewrite nth_error_firstn in Hj.
  destruct (Nat.ltb_spec j k); [exact Hj | lia].
Qed.

(** Without a blank line there is no split, whatever the threshold. *)
Theorem extractLead_needs_blank_line :
  forall (lines : list string) (size : Z),
    (forall l, In l lines -> trim l <> "") ->
    extractLead lines size = None.
Proof.
  intros lines size Hnone.
  destruct (extractLead lines size) as [sp |] eqn:H; [| reflexivity].
  destruct (extractLead_first_blank _ _ _ H) as (k & [b [Hnth Hb]] & _).
  exfalso. apply (Hnone b); [| exact Hb].
  eapply nth_error_In. exact Hnth.
Qed.

(** ** Further properties of the formatter *)

(** [signatureToMarkdown] throws exactly when there is a parameters list
    and the active-parameter index in effect is the length of that list or
    is negative.  The index in effect is the number the description
    carries; the fallback when the description leaves [activeParameter]
    out; and none when the description carries [null], whatever the
    fallback. *)
Theorem signatureToMarkdown_throws_iff :
  forall (item : SignatureInformation) (language : string)
         (fallback : option Z) (maxLinesBeforeCollapse : Z),
    (exists e,
        result (signatureToMarkdown item language fallback
                  maxLinesBeforeCollapse) = Threw e)
    <-> exists ps ap,
          parameters item = Some ps
          /\ match activeParameter item with
             | Undefined => fallback
             | Null => None
             | Value a => Some a
             end = Some ap
          /\ (ap = Z.of_nat (List.length ps) \/ ap < 0).
Proof.
  intros item language fallback maxL.
  rewrite (signatureToMarkdown_result _ _ _ _ _ (detailsOf_result item)).
  unfold labelMarkdown.
  destruct (parameters item) as [ps |].
  - destruct (match activeParameter item with
              | Undefined => fallback
              | Null => None
              | Value a => Some a
              end) as [ap |].
    + destruct (Z.gtb_spec ap (Z.of_nat (List.length ps))) as [Hgt | Hle].
      * simpl. split.
        -- intros [e He]. discriminate.
        -- intros (ps' & ap' & Hps & Hap & Hout).
           inversion Hps; inversion Hap; subst. lia.
      * unfold at_. destruct (Z.ltb_spec ap 0) as [Hneg | Hpos].
        -- simpl. split; [| intros _; eexists; reflexivity].
           intros _. exists ps, ap. auto.
        -- destruct (nth_error ps (Z.to_nat ap)) as [p |] eqn:Hnth.
           ++ simpl. split; [intros [e He]; discriminate |].
              intros (ps' & ap' & Hps & Hap & Hout).
              inversion Hps; inversion Hap; subst.
              assert (Z.to_nat ap' < List.length ps')%nat
                by (apply nth_error_Some; congruence).
              lia.
           ++ simpl. split; [| intros _; eexists; reflexivity].
              intros _. exists ps, ap. split; [reflexivity |].
              split; [reflexivity |]. left.
              apply nth_error_None in Hnth. lia.
    + simpl. split; [intros [e He]; discriminate |].
      intros (ps' & ap' & _ & Hap & _). discriminate.
  - split.
    + intros [e He].
      destruct (match activeParameter item with
                | Undefined => fallback
                | Null => None
                | Value a => Some a
                end); discriminate.
    + intros (ps' & ap' & Hps & _). discriminate.
Qed.

(** An active parameter carried by the description itself wins over the
    one of the response: the fallback has no effect on what is returned or
    logged. *)
Theorem own_active_parameter_overrides_fallback :
  forall (item : SignatureInformation) (language : string)
         (fallback fallback' : option Z) (maxLinesBeforeCollapse : Z),
    activeParameter item <> Undefined ->
    signatureToMarkdown item language fallback maxLinesBeforeCollapse
    = signatureToMarkdown item language fallback' maxLinesBeforeCollapse.
Proof.
  intros item language fb fb' maxL Hown.
  unfold signatureToMarkdown, labelMarkdown.
  destruct (activeParameter item); [congruence | reflexivity | reflexivity].
Qed.

(** With an index in effect (the number the description carries, or the
    fallback when the description leaves [activeParameter] out; a [null]
    of the description gives no index) that lies inside the parameters
    list, the highlighter is called exactly once, on the whole label and
    the label of that parameter (the string itself, or the slice of the
    signature label it names), and its result takes the place of the code
    block. *)
Theorem active_parameter_in_range_is_highlighted :
  forall (item : SignatureInformation) (language : string)
         (fallback : option Z) (maxLinesBeforeCollapse : Z)
         (ps : list ParameterInformation) (ap : Z) (p : ParameterInformation),
    parameters item = Some ps ->
    match activeParameter item with
    | Undefined => fallback
    | Null => None
    | Value a => Some a
    end = Some ap ->
    0 <= ap ->
    nth_error ps (Z.to_nat ap) = Some p ->
    let substring :=
      match plabel p with
      | LabelString s => s
      | LabelRange start stop => strSlice start stop (label item)
      end in
    let m := signatureToMarkdown item language fallback
               maxLinesBeforeCollapse in
    filter isHighlight (trace m) = [Highlight (label item) substring language]
    /\ result m
       = Returned (appendDetails
                     (codeHighlighter (label item) substring language)
                     (detailsOf item) maxLinesBeforeCollapse).
Proof.
  intros item language fallback maxL ps ap p Hps Hap Hpos Hnth substring m.
  assert (Hlabel :
    labelMarkdown item language fallback
    = ([Highlight (label item) substring language],
       Returned (codeHighlighter (label item) substring language))).
  { unfold labelMarkdown. rewrite Hps, Hap.
    assert (Hlt : (Z.to_nat ap < List.length ps)%nat)
      by (apply nth_error_Some; congruence).
    destruct (Z.gtb_spec ap (Z.of_nat (List.length ps))); [lia |].
    unfold at_. destruct (Z.ltb_spec ap 0); [lia |].
    rewrite Hnth. reflexivity. }
  subst m. split.
  - unfold signatureToMarkdown. rewrite trace_bind, Hlabel. simpl.
    rewrite trace_bind, detailsOf_result. simpl. rewrite app_nil_r.
    pose proof (signatureDetails_no_highlight item) as Hno.
    induction (trace (signatureDetails item)) as [| e t IH]; [reflexivity |].
    simpl in Hno |- *. apply orb_false_iff in Hno. destruct Hno as [He Ht].
    rewrite He. apply IH. exact Ht.
  - rewrite (signatureToMarkdown_result _ _ _ _ _ (detailsOf_result item)).
    rewrite Hlabel. reflexivity.
Qed.

Lemma plainTextDetails_all_dropped (item : SignatureInformation) :
  forall (ls : list string) (acc : string),
    Forall (fun l => trim l = trim (label item)) ls ->
    fold_left
      (fun details line =>
         if String.eqb (trim line) (trim (label item)) then details
         else details ++ getMarkdown (DocString line) ++ NL) ls acc = acc.
Proof.
  induction ls as [| l ls IH]; intros acc H; [reflexivity |].
  inversion H as [| ? ? Hl Hls]; subst. simpl.
  rewrite Hl, String.eqb_refl. apply IH. exact Hls.
Qed.

(** Plain-text documentation, given as a string or as [MarkupContent] of
    kind [plaintext], every line of which is, up to surrounding white
    space, the label itself leaves no details at all: the result is the
    code block and one newline, and the parameters are not listed either. *)
Theorem documentation_repeating_label_is_dropped :
  forall (item : SignatureInformation) (language : string)
         (fallback : option Z) (maxLinesBeforeCollapse : Z) (doc : string),
    (documentation item = Some (DocString doc) /\ doc <> "")
    \/ documentation item = Some (DocMarkup "plaintext" doc) ->
    Forall (fun l => trim l = trim (label item)) (split_nl doc) ->
    result (signatureDetails item) = Returned ""
    /\ trace (signatureDetails item) = []
    /\ result (signatureToMarkdown item language fallback
                 maxLinesBeforeCollapse)
       = mapOutcome (fun markdown => markdown ++ NL)
           (result (labelMarkdown item language fallback)).
Proof.
  intros item language fallback maxL doc Hdoc Hall.
  assert (Hdet : signatureDetails item = ([], Returned "")).
  { unfold signatureDetails.
    destruct Hdoc as [[Hdoc Hne] | Hdoc]; rewrite Hdoc; simpl truthyDoc.
    - apply String.eqb_neq in Hne. rewrite Hne. simpl.
      unfold plainTextDetails.
      rewrite plainTextDetails_all_dropped by exact Hall. reflexivity.
    - cbv iota. change (String.eqb "plaintext" "plaintext") with true.
      cbv iota. unfold plainTextDetails.
      rewrite plainTextDetails_all_dropped by exact Hall. reflexivity. }
  split; [rewrite Hdet; reflexivity |]. split; [rewrite Hdet; reflexivity |].
  rewrite (signatureToMarkdown_result _ _ _ _ "") by (rewrite Hdet; reflexivity).
  reflexivity.
Qed.

(** With an active-signature index inside the list only that description
    is formatted, with the active parameter of the response as fallback:
    the other descriptions add nothing to the result or to the log. *)
Theorem active_signature_alone_is_formatted :
  forall (self : SignatureCM) (response : SignatureHelp) (language : string)
         (active : Z) (item : SignatureInformation),
    activeSignature response = Some active ->
    0 <= active ->
    nth_error (signatures response) (Z.to_nat active) = Some item ->
    let one := signatureToMarkdown item language
                 (helpActiveParameter response) (maxLines self) in
    let m := get_markup_for_signature_help self response language in
    trace m = trace one
    /\ result m
       = mapOutcome (fun markdown => {| kind := "markdown"; value := markdown |})
           (result one).
Proof.
  intros self response language active item Hact Hpos Hnth one m.
  subst m. unfold get_markup_for_signature_help. rewrite Hact.
  assert (Hlt : (Z.to_nat active < List.length (signatures response))%nat)
    by (apply nth_error_Some; congruence).
  destruct (Z.geb_spec active (Z.of_nat (List.length (signatures response))));
    [lia |].
  unfold at_. destruct (Z.ltb_spec active 0); [lia |].
  rewrite Hnth. fold one. rewrite trace_bind, result_bind.
  destruct (result one); simpl; [rewrite app_nil_r |]; split; reflexivity.
Qed.

(** ** Further properties of the response handling *)

(** A response with signatures, handled with [signatureCharacter] set, the
    cursor on the line of the request at or after its character and the
    editor focused, is shown exactly when formatting it returns, at the
    anchor handed over or else the computed one; when formatting throws,
    the exception leaves [handleSignature] after the single [hide]. *)
Theorem accepted_response_is_shown :
  forall (self : SignatureCM) (help : SignatureHelp)
         (position_at_request : IRootPosition)
         (display_position : option IEditorPosition),
    signatureCharacter self <> None ->
    signatures help <> [] ->
    line (get_cursor_position self) = line position_at_request ->
    ch position_at_request <= ch (get_cursor_position self) ->
    hasFocus (get_cm_editor self (get_cursor_position self)) = true ->
    let root_position := get_cursor_position self in
    let cm_editor := get_cm_editor self root_position in
    let editor_position := root_position_to_editor self root_position in
    let language := get_language_at self editor_position cm_editor in
    let formatted := get_markup_for_signature_help self help language in
    let m := handleSignature self (RHelp help) position_at_request
               display_position in
    (forall markup,
        result formatted = Returned markup ->
        result m = Returned tt
        /\ tooltipCalls m
           = [TooltipHide;
              TooltipShowOrCreate markup
                match display_position with
                | Some p => p
                | None => anchorFromTrigger self cm_editor editor_position
                end])
    /\ (forall e,
           result formatted = Threw e ->
           result m = Threw e /\ tooltipCalls m = [TooltipHide])
    /\ (existsb isShowOrCreate (tooltipCalls m) = true
        <-> exists markup, result formatted = Returned markup).
Proof.
  intros self help par dp Hset Hsigs Hline Hch Hfocus
         root_position cm_editor editor_position language formatted m.
  pose proof (handleSignature_accepted self help par dp
                Hset Hsigs Hline Hch Hfocus) as H.
  cbv zeta in H. fold root_position cm_editor editor_position language in H.
  fold formatted m in H.
  destruct (result formatted) as [markup | e].
  - destruct H as [Hr Hc]. split; [| split].
    + intros markup' E. inversion E; subst. split; assumption.
    + intros e E. discriminate.
    + rewrite Hc. split; [intros _; eexists; reflexivity | reflexivity].
  - destruct H as [Hr Hc]. split; [| split].
    + intros markup E. discriminate.
    + intros e' E. inversion E; subst. split; assumption.
    + rewrite Hc. split; [discriminate | intros [markup E]; discriminate].
Qed.

(** A response that arrives when the editor has lost focus is hidden and
    removed, never shown, although the cursor has not left the request. *)
Theorem response_without_focus_is_removed :
  forall (self : SignatureCM) (help : SignatureHelp)
         (position_at_request : IRootPosition)
         (display_position : option IEditorPosition),
    signatures help <> [] ->
    hasFocus (get_cm_editor self (get_cursor_position self)) = false ->
    let m := handleSignature self (RHelp help) position_at_request
               display_position in
    result m = Returned tt
    /\ tooltipCalls m = [TooltipHide; TooltipRemove]
    /\ forall t : Tooltip, runTooltip t (trace m) = None.
Proof.
  intros self help par dp Hne Hfocus m. subst m. unfold handleSignature.
  destruct (signatures help) as [| s0 rest]; [congruence |].
  destruct (signatureCharacter self); simpl; [| repeat split; reflexivity].
  destruct (negb (line par =? line (get_cursor_position self))
            || (ch (get_cursor_position self) <? ch par));
    simpl; [repeat split; reflexivity |].
  rewrite Hfocus. simpl. repeat split; reflexivity.
Qed.

(** Whatever the response and the state, [handleSignature] calls the
    tooltip in one of five ways: not at all, [remove], [hide] then
    [remove], [hide] then [showOrCreate], or, only when it throws, [hide]
    alone. So it shows at most once, nothing follows a show, and only a
    thrown exception leaves a hidden popup behind. *)
Theorem handleSignature_tooltip_calls :
  forall (self : SignatureCM) (response : Response)
         (position_at_request : IRootPosition)
         (display_position : option IEditorPosition),
    let m := handleSignature self response position_at_request
               display_position in
    (tooltipCalls m = [] /\ result m = Returned tt)
    \/ (tooltipCalls m = [TooltipRemove] /\ result m = Returned tt)
    \/ (tooltipCalls m = [TooltipHide; TooltipRemove] /\ result m = Returned tt)
    \/ (exists markup position,
           tooltipCalls m = [TooltipHide; TooltipShowOrCreate markup position]
           /\ result m = Returned tt)
    \/ (tooltipCalls m = [TooltipHide] /\ exists e, result m = Threw e).
Proof.
  intros self response par dp m. subst m.
  destruct response as [| | help].
  - right; left. split; reflexivity.
  - left. split; reflexivity.
  - unfold handleSignature.
    destruct (signatureCharacter self) as [sc |];
      [| right; right; left; split; reflexivity].
    destruct (signatures help) as [| s0 rest] eqn:Hs;
      [right; right; left; split; reflexivity |].
    cbn [isSet negb orb List.length Nat.eqb].
    destruct (negb (line par =? line (get_cursor_position self))
              || (ch (get_cursor_position self) <? ch par));
      [right; right; left; split; reflexivity |].
    destruct (hasFocus (get_cm_editor self (get_cursor_position self))).
    2:{ right; right; left. split; reflexivity. }
    simpl negb. cbv iota.
    match goal with
    | |- context [get_markup_for_signature_help ?s ?h ?l] =>
        pose proof (silent_get_markup s h l) as Hsilent;
        destruct (get_markup_for_signature_help s h l) as [t [markup | e]]
    end; unfold silent, tooltipCalls, trace in Hsilent; simpl in Hsilent.
    + right; right; right; left.
      eexists; eexists. unfold tooltipCalls, trace, result. simpl.
      rewrite filter_app, Hsilent. split; reflexivity.
    + right; right; right; right.
      unfold tooltipCalls, trace, result. simpl. rewrite Hsilent.
      split; [reflexivity | eexists; reflexivity].
Qed.

(** [_afterChange] sends a request exactly when the last character is a
    trigger character or the popup is on display, and the connection is
    ready with signature help advertised. The request then carries the
    position given and the anchor of the popup on display, if any; the
    popup is removed exactly when it is on display and the character is a
    close character, which does not stop the request. *)
Theorem afterChange_decision :
  forall (self : SignatureCM) (tooltip : Tooltip) (last_character : string)
         (root_position : IRootPosition),
    let m := _afterChange self tooltip last_character root_position in
    let wanted :=
      (includes last_character (signatureCharacters self) || isShown tooltip)
      && (isReady self && signatureHelpProvider self) in
    result m
    = Returned
        (if wanted
         then (set_signatureCharacter self root_position,
               Some {| position_at_request := root_position;
                       previousPosition := option_map snd tooltip |})
         else (self, None))
    /\ tooltipCalls m
       = if isShown tooltip && includes last_character (closeCharacters self)
         then [TooltipRemove] else [].
Proof.
  intros self tooltip c root m wanted. subst m wanted.
  unfold _afterChange, requestSignature.
  destruct tooltip as [[markup anchor] |]; cbn [isShown isSet option_map snd].
  - rewrite orb_true_r. cbn [negb andb].
    destruct (includes c (closeCharacters self));
      destruct (isReady self && signatureHelpProvider self);
      split; reflexivity.
  - rewrite orb_false_r. cbn [andb].
    destruct (includes c (signatureCharacters self));
      destruct (isReady self && signatureHelpProvider self);
      split; reflexivity.
Qed.

Lemma formatEach_maxLines (self self' : SignatureCM) (language : string)
    (items : list SignatureInformation) :
  maxLines self' = maxLines self ->
  formatEach self' language items = formatEach self language items.
Proof.
  intros H. induction items as [| item rest IH]; [reflexivity |].
  cbn [formatEach]. rewrite H, IH. reflexivity.
Qed.

Lemma get_markup_maxLines (self self' : SignatureCM)
    (response : SignatureHelp) (language : string) :
  maxLines self' = maxLines self ->
  get_markup_for_signature_help self' response language
  = get_markup_for_signature_help self response language.
Proof.
  intros H. unfold get_markup_for_signature_help, formatAll.
  rewrite (formatEach_maxLines self self' language _ H), H. reflexivity.
Qed.

Lemma settle_after_set (self : SignatureCM) (position : IRootPosition)
    (previous : option IEditorPosition) (help : SignatureHelp) :
  position = get_cursor_position self ->
  signatures help <> [] ->
  hasFocus (get_cm_editor self (get_cursor_position self)) = true ->
  let root_position := get_cursor_position self in
  let cm_editor := get_cm_editor self root_position in
  let editor_position := root_position_to_editor self root_position in
  let language := get_language_at self editor_position cm_editor in
  let m := settle (set_signatureCharacter self position)
             {| position_at_request := position;
                previousPosition := previous |} (RHelp help) in
  match result (get_markup_for_signature_help self help language) with
  | Returned markup =>
      result m = Returned tt
      /\ tooltipCalls m
         = [TooltipHide;
            TooltipShowOrCreate markup
              match previous with
              | Some anchor => anchor
              | None => anchorFromTrigger self cm_editor editor_position
              end]
  | Threw e => result m = Threw e /\ tooltipCalls m = [TooltipHide]
  end.
Proof.
  intros -> Hsigs Hfocus root_position cm_editor editor_position language m.
  subst m. unfold settle. cbn [position_at_request previousPosition].
  pose proof (handleSignature_accepted
                (set_signatureCharacter self (get_cursor_position self))
                help (get_cursor_position self) previous) as H.
  cbn [set_signatureCharacter signatureCharacter get_cursor_position
       get_cm_editor root_position_to_editor get_language_at] in H.
  specialize (H ltac:(discriminate) Hsigs eq_refl ltac:(lia) Hfocus).
  rewrite (get_markup_maxLines self) in H by reflexivity.
  exact H.
Qed.

(** A request that was sent, answered with signatures while the cursor is
    still where the request was made and the editor has focus: the answer
    is shown exactly when formatting it returns, at the anchor handed to
    the request if there is one. *)
Theorem request_then_response :
  forall (self self' : SignatureCM) (request : PendingRequest)
         (previous : option IEditorPosition) (help : SignatureHelp),
    requestSignature self (get_cursor_position self) previous
    = (self', Some request) ->
    signatures help <> [] ->
    hasFocus (get_cm_editor self (get_cursor_position self)) = true ->
    let root_position := get_cursor_position self in
    let cm_editor := get_cm_editor self root_position in
    let editor_position := root_position_to_editor self root_position in
    let language := get_language_at self editor_position cm_editor in
    let m := settle self' request (RHelp help) in
    match result (get_markup_for_signature_help self help language) with
    | Returned markup =>
        result m = Returned tt
        /\ tooltipCalls m
           = [TooltipHide;
              TooltipShowOrCreate markup
                match previous with
                | Some anchor => anchor
                | None => anchorFromTrigger self cm_editor editor_position
                end]
    | Threw e => result m = Threw e /\ tooltipCalls m = [TooltipHide]
    end.
Proof.
  intros self self' request previous help Hreq Hsigs Hfocus.
  unfold requestSignature in Hreq.
  destruct (negb (isReady self && signatureHelpProvider self));
    [discriminate |].
  inversion Hreq; subst self' request; clear Hreq.
  apply settle_after_set; [reflexivity | exact Hsigs | exact Hfocus].
Qed.

(** [onCursorActivity] sends a request only while a popup is on display,
    the cursor has not moved before the anchor on the line of the anchor,
    and the connection is ready with signature help advertised; the
    request carries the position of the cursor and the anchor of that
    popup, and the popup is not touched. *)
Theorem onCursorActivity_request :
  forall (self self' : SignatureCM) (tooltip : Tooltip)
         (request : PendingRequest),
    result (onCursorActivity self tooltip) = Returned (self', Some request) ->
    exists markup anchor,
      tooltip = Some (markup, anchor)
      /\ (let position :=
            root_position_to_editor self (get_cursor_position self) in
          (eline position =? eline anchor) && jsLt (ech position) (ech anchor)
          = false)
      /\ isReady self = true
      /\ signatureHelpProvider self = true
      /\ request = {| position_at_request := get_cursor_position self;
                      previousPosition := Some anchor |}
      /\ self' = set_signatureCharacter self (get_cursor_position self)
      /\ tooltipCalls (onCursorActivity self tooltip) = [].
Proof.
  intros self self' tooltip request H.
  unfold onCursorActivity in *.
  destruct tooltip as [[markup anchor] |]; [| discriminate].
  exists markup, anchor. split; [reflexivity |].
  destruct ((eline (root_position_to_editor self (get_cursor_position self))
             =? eline anchor)
            && jsLt (ech (root_position_to_editor self (get_cursor_position self)))
                 (ech anchor)) eqn:Hreceded; [discriminate |].
  unfold requestSignature in *.
  destruct (isReady self); [| discriminate].
  destruct (signatureHelpProvider self); [| discriminate].
  simpl in H. inversion H; subst. repeat split; reflexivity.
Qed.

(** When the cursor has moved before the anchor of the popup, on the line
    of the anchor, [onCursorActivity] removes the popup and sends nothing. *)
Theorem onCursorActivity_receded :
  forall (self : SignatureCM) (markup : MarkupContent)
         (anchor : IEditorPosition),
    let position := root_position_to_editor self (get_cursor_position self) in
    eline position = eline anchor ->
    jsLt (ech position) (ech anchor) = true ->
    onCursorActivity self (Some (markup, anchor))
    = ([TooltipRemove], Returned (self, None)).
Proof.
  intros self markup anchor position Hline Hch. subst position.
  unfold onCursorActivity. rewrite Hline, Z.eqb_refl, Hch. reflexivity.
Qed.

(** The anchor is stable across a refresh: a request sent by
    [onCursorActivity] and answered with signatures, while the cursor is
    still in place and the editor has focus, is shown at the anchor of the
    popup that was on display. *)
Theorem refresh_keeps_anchor :
  forall (self self' : SignatureCM) (markup0 : MarkupContent)
         (anchor : IEditorPosition) (request : PendingRequest)
         (help : SignatureHelp) (markup : MarkupContent),
    result (onCursorActivity self (Some (markup0, anchor)))
    = Returned (self', Some request) ->
    signatures help <> [] ->
    hasFocus (get_cm_editor self (get_cursor_position self)) = true ->
    result (get_markup_for_signature_help self help
              (get_language_at self
                 (root_position_to_editor self (get_cursor_position self))
                 (get_cm_editor self (get_cursor_position self))))
    = Returned markup ->
    tooltipCalls (settle self' request (RHelp help))
    = [TooltipHide; TooltipShowOrCreate markup anchor].
Proof.
  intros self self' markup0 anchor request help markup Hact Hsigs Hfocus Hfmt.
  unfold onCursorActivity in Hact.
  destruct ((eline (root_position_to_editor self (get_cursor_position self))
             =? eline anchor)
            && jsLt (ech (root_position_to_editor self (get_cursor_position self)))
                 (ech anchor)); [discriminate |].
  unfold requestSignature in Hact.
  destruct (negb (isReady self && signatureHelpProvider self));
    [discriminate |].
  cbn [result ret snd] in Hact. inversion Hact; subst self' request.
  pose proof (settle_after_set self (get_cursor_position self) (Some anchor)
                help eq_refl Hsigs Hfocus) as H.
  cbv zeta in H. rewrite Hfmt in H. exact (proj2 H).
Qed.

(** [onBlur] throws exactly when a popup is on display and the event has
    no related target; it removes the popup exactly when one is on display
    and the focus went to an element outside of it; otherwise it does
    nothing. *)
Theorem onBlur_outcomes :
  forall (tooltip : Tooltip) (relatedTarget : option bool),
    ((exists e, result (onBlur tooltip relatedTarget) = Threw e)
     <-> isShown tooltip = true /\ relatedTarget = None)
    /\ tooltipCalls (onBlur tooltip relatedTarget)
       = if isShown tooltip
         then match relatedTarget with
              | Some false => [TooltipRemove]
              | _ => []
              end
         else [].
Proof.
  intros tooltip relatedTarget. unfold onBlur.
  destruct (isShown tooltip); simpl.
  - destruct relatedTarget as [[|] |]; simpl; split; try reflexivity.
    + split; [intros [e He]; discriminate | intros [_ H]; discriminate].
    + split; [intros [e He]; discriminate | intros [_ H]; discriminate].
    + split; [intros _; split; reflexivity | intros _; eexists; reflexivity].
  - split; [| reflexivity].
    split; [intros [e He]; discriminate | intros [H _]; discriminate].
Qed.

End Signature.

Lemma C1_stale_response_is_removed_witness :
  let self := Sample.self ["("] {| line := 1; ch := 0 |} in
  let m := handleSignature Sample.noEscape Sample.markHighlighter
             Sample.cm_to_ce Sample.ce_to_cm Sample.offsetAtPosition
             Sample.positionAtOffset self (RHelp (Sample.fooHelp (Some 1)))
             {| line := 0; ch := 4 |} None in
  result m = Returned tt
  /\ tooltipCalls m = [TooltipHide; TooltipRemove]
  /\ existsb isShowOrCreate (trace m) = false
  /\ forall t : Tooltip, runTooltip t (trace m) = None.
Proof.
  apply (C1_stale_response_is_removed Sample.noEscape Sample.markHighlighter
           Sample.cm_to_ce Sample.ce_to_cm Sample.offsetAtPosition
           Sample.positionAtOffset
           (Sample.self ["("] {| line := 1; ch := 0 |})
           (Sample.fooHelp (Some 1)) {| line := 0; ch := 4 |} None).
  - simpl. discriminate.
  - left. simpl. lia.
Defined.

Lemma C9_unrecognized_labelExtra_witness :
  getExtraInfo "everything" None
  = ([ConsoleWarn labelExtraMessage "everything"], Returned (Some "")).
Proof.
  apply (C9_unrecognized_labelExtra "everything" None); discriminate.
Defined.

(** ** The properties at sample inputs *)

(** Scenario A of the specification: the second parameter is marked. *)
Example signatureToMarkdown_scenario_A :
  signatureToMarkdown Sample.noEscape Sample.markHighlighter
    (Sample.fooItem (Some 1)) "python" None 4
  = ([Highlight "foo(a, b)" "b" "python"],
     Returned (Sample.markHighlighter "foo(a, b)" "b" "python"
               ++ NL ++ NL ++ NL ++ NL)).
Proof. reflexivity. Qed.

(** Scenario B of the specification: index 5 with two parameters. *)
Example signatureToMarkdown_scenario_B :
  signatureToMarkdown Sample.noEscape Sample.markHighlighter
    (Sample.fooItem (Some 5)) "python" None 4
  = ([ConsoleError wrongActiveMessage],
     Returned (codeBlock "python" "foo(a, b)" ++ NL ++ NL ++ NL ++ NL)).
Proof. reflexivity. Qed.

(** Scenario C of the specification: a documentation line equal to the
    label is left out. *)
Example signatureToMarkdown_scenario_C :
  result (signatureDetails Sample.noEscape
            {| label := "f(x)";
               documentation := Some (DocString ("  f(x) " ++ NL ++ "Adds one."));
               parameters := None;
               activeParameter := Undefined |})
  = Returned ("Adds one." ++ NL).
Proof. reflexivity. Qed.

Lemma C2_index_at_length_throws_witness :
  signatureToMarkdown Sample.noEscape Sample.markHighlighter
    (Sample.fooItem (Some 2)) "python" None 4
  = ([], Threw (TypeError
                  "Cannot read properties of undefined (reading 'label')")).
Proof.
  apply (C2_index_at_length_throws Sample.noEscape Sample.markHighlighter
           (Sample.fooItem (Some 2)) "python" None 4
           [ {| plabel := LabelRange 4 5; pdocumentation := None |};
             {| plabel := LabelRange 7 8; pdocumentation := None |} ] 2).
  - reflexivity.
  - left. reflexivity.
  - left. reflexivity.
Defined.

Lemma C3_collapsing_law_witness :
  exists out : string,
    result (signatureToMarkdown Sample.noEscape Sample.markHighlighter
              (Sample.documentedItem Sample.sixLines) "python" None 4)
    = Returned out
    /\ (trimmedLines Sample.sixLines <= 4 -> collapsibleRegions out = 0%nat)
    /\ (trimmedLines Sample.sixLines > 4 -> Sample.sixLines <> "" ->
        collapsibleRegions out = 1%nat)
    /\ (Sample.sixLines = "" ->
        trimmedLines Sample.sixLines = 1
        /\ out = codeBlock "python" "f(x)" ++ NL
        /\ collapsibleRegions out = 0%nat).
Proof.
  apply (C3_collapsing_law Sample.noEscape Sample.markHighlighter
           (Sample.documentedItem Sample.sixLines) "python" None 4
           (codeBlock "python" "f(x)") Sample.sixLines);
    reflexivity.
Defined.

(** C3, counterexample. A description without documentation and without
    parameters has the empty details text, which the source counts as one
    line; with the threshold [0] it has more lines than the threshold, yet
    the returned string holds no collapsible region. *)
Lemma C3_empty_details_counterexample :
  let m := signatureToMarkdown Sample.noEscape Sample.markHighlighter
             Sample.bareItem "python" None 0 in
  result (labelMarkdown Sample.markHighlighter Sample.bareItem "python" None)
  = Returned (codeBlock "python" "now()")
  /\ collapsibleRegions (codeBlock "python" "now()") = 0%nat
  /\ result (signatureDetails Sample.noEscape Sample.bareItem) = Returned ""
  /\ trimmedLines "" > 0
  /\ result m = Returned (codeBlock "python" "now()" ++ NL)
  /\ collapsibleRegions (codeBlock "python" "now()" ++ NL) <> 1%nat.
Proof.
  repeat split; try reflexivity. discriminate.
Qed.

(** Scenario D inside [signatureToMarkdown]: lead, then the collapsed
    remainder. *)
Example signatureToMarkdown_scenario_D :
  result (signatureToMarkdown Sample.noEscape Sample.markHighlighter
            (Sample.documentedItem Sample.sixLines) "python" None 4)
  = Returned (codeBlock "python" "f(x)" ++ NL ++ NL
              ++ "one" ++ NL ++ "two" ++ NL ++ "<details>" ++ NL
              ++ "four" ++ NL ++ "five" ++ NL ++ "six" ++ NL ++ "</details>").
Proof. reflexivity. Qed.

(** C5, the failing case. The response is not empty, the cursor has not
    moved since the request and the editor has focus, but the active
    parameter equals the number of parameters: formatting throws, the
    exception leaves [handleSignature], and the tooltip, hidden on entry,
    is never shown. *)
Theorem C5_accepted_response_not_shown :
  let self := Sample.self ["("] {| line := 0; ch := 4 |} in
  let request := {| line := 0; ch := 4 |} in
  let response := Sample.fooHelp (Some 2) in
  let m := handleSignature Sample.noEscape Sample.markHighlighter
             Sample.cm_to_ce Sample.ce_to_cm Sample.offsetAtPosition
             Sample.positionAtOffset self (RHelp response) request None in
  signatures response <> []
  /\ line (get_cursor_position self) = line request
  /\ ch (get_cursor_position self) >= ch request
  /\ hasFocus (get_cm_editor self (get_cursor_position self)) = true
  /\ result m
     = Threw (TypeError "Cannot read properties of undefined (reading 'label')")
  /\ tooltipCalls m = [TooltipHide]
  /\ existsb isShowOrCreate (trace m) = false.
Proof.
  repeat split; try reflexivity.
  - discriminate.
  - simpl. lia.
Qed.

(** The same request with the active parameter in range is shown, at the
    last trigger character before the cursor. *)
Example handleSignature_shown :
  let self := Sample.self ["("; ","] {| line := 0; ch := 4 |} in
  tooltipCalls
    (handleSignature Sample.noEscape Sample.markHighlighter
       Sample.cm_to_ce Sample.ce_to_cm Sample.offsetAtPosition
       Sample.positionAtOffset self (RHelp (Sample.fooHelp (Some 1)))
       {| line := 0; ch := 4 |} None)
  = [TooltipHide;
     TooltipShowOrCreate
       {| kind := "markdown";
          value := Sample.markHighlighter "foo(a, b)" "b" "python"
                   ++ NL ++ NL ++ NL ++ NL |}
       {| eline := 0; ech := Num 3 |}].
Proof. reflexivity. Qed.

(** [handleSignature] taken on its own, with an empty list of trigger
    characters and no anchor handed over: the position is derived from
    [-Infinity].  No request of [_afterChange] or [onCursorActivity] leads
    here: a request without anchor follows a typed trigger character, and
    the getter keeps a list that is not empty ([issued_anchor],
    [readLater_stable]). *)
Example handleSignature_with_empty_trigger_list :
  let self := Sample.self [] {| line := 0; ch := 4 |} in
  let m := handleSignature Sample.noEscape Sample.markHighlighter
             Sample.cm_to_ce Sample.ce_to_cm Sample.offsetAtPosition
             Sample.positionAtOffset self (RHelp (Sample.fooHelp (Some 1)))
             {| line := 0; ch := 4 |} None in
  root_position_to_editor self (get_cursor_position self)
  = {| eline := 0; ech := Num 4 |}
  /\ tooltipCalls m
     = [TooltipHide;
        TooltipShowOrCreate
          {| kind := "markdown";
             value := Sample.markHighlighter "foo(a, b)" "b" "python"
                      ++ NL ++ NL ++ NL ++ NL |}
          {| eline := 0; ech := NegInfinity |}].
Proof. split; reflexivity. Qed.

Lemma C8_all_descriptions_without_fallback_witness :
  let self := Sample.self ["("] {| line := 0; ch := 4 |} in
  let response := Sample.strayActiveSignature in
  let m := get_markup_for_signature_help Sample.noEscape
             Sample.markHighlighter self response "python" in
  (forall outs,
      Forall2 (fun item out =>
                 result (signatureToMarkdown Sample.noEscape
                           Sample.markHighlighter item "python" None
                           (maxLines self))
                 = Returned out) (signatures response) outs ->
      result m
      = Returned {| kind := "markdown";
                    value := String.concat (NL ++ NL) outs |})
  /\ ((forall item, In item (signatures response) ->
                    forall a, activeParameter item <> Value a) ->
      result m
      = Returned {| kind := "markdown";
                    value := String.concat (NL ++ NL)
                               (map (unmarkedMarkdown Sample.noEscape "python"
                                       (maxLines self))
                                    (signatures response)) |}
      /\ existsb isHighlight (trace m) = false).
Proof.
  apply (C8_all_descriptions_without_fallback Sample.noEscape
           Sample.markHighlighter
           (Sample.self ["("] {| line := 0; ch := 4 |})
           Sample.strayActiveSignature "python").
  right. exists 7. split; [reflexivity | simpl; lia].
Defined.

(** An active-signature index out of bounds: both descriptions are
    rendered, unmarked, although the response names an active parameter. *)
Example get_markup_stray_active_signature :
  get_markup_for_signature_help Sample.noEscape Sample.markHighlighter
    (Sample.self ["("] {| line := 0; ch := 4 |})
    Sample.strayActiveSignature "python"
  = ([ConsoleError wrongActiveMessage],
     Returned
       {| kind := "markdown";
          value := codeBlock "python" "foo(a, b)" ++ NL ++ NL ++ NL ++ NL
                   ++ NL ++ NL
                   ++ codeBlock "python" "f(x)" ++ NL ++ NL
                   ++ "one" ++ NL ++ "two" ++ NL ++ "<details>" ++ NL
                   ++ "four" ++ NL ++ "five" ++ NL ++ "six" ++ NL
                   ++ "</details>" |}).
Proof. reflexivity. Qed.

(** C8, counterexample. No active signature and two descriptions, the
    first of which carries an active parameter of its own: that
    description is highlighted. *)
Lemma C8_own_active_parameter_counterexample :
  let self := Sample.self ["("] {| line := 0; ch := 4 |} in
  let m := get_markup_for_signature_help Sample.noEscape
             Sample.markHighlighter self Sample.twoSignatures "python" in
  (1 < List.length (signatures Sample.twoSignatures))%nat
  /\ activeSignature Sample.twoSignatures = None
  /\ trace m = [Highlight "foo(a, b)" "a" "python"]
  /\ existsb isHighlight (trace m) = true
  /\ result m
     = Returned {| kind := "markdown";
                   value := Sample.markHighlighter "foo(a, b)" "a" "python"
                            ++ NL ++ NL ++ NL ++ NL ++ NL ++ NL
                            ++ codeBlock "python" "now()" ++ NL |}.
Proof.
  repeat split; try reflexivity. simpl. lia.
Qed.

Lemma C10_undocumented_parameters_witness :
  let item := Sample.fooItem None in
  result (signatureDetails Sample.noEscape item) = Returned (NL ++ NL)
  /\ result (signatureToMarkdown Sample.noEscape Sample.markHighlighter
               item "python" None 4)
     = mapOutcome (fun markdown => markdown ++ NL ++ NL ++ NL ++ NL)
         (result (labelMarkdown Sample.markHighlighter item "python" None))
  /\ (activeParameter item = Undefined -> @None Z = None ->
      result (signatureToMarkdown Sample.noEscape Sample.markHighlighter
                item "python" None 4)
      = Returned (codeBlock "python" (label item) ++ NL ++ NL ++ NL ++ NL))
  /\ (activeParameter item = Null ->
      result (signatureToMarkdown Sample.noEscape Sample.markHighlighter
                item "python" None 4)
      = Returned (codeBlock "python" (label item) ++ NL ++ NL ++ NL ++ NL)).
Proof.
  apply (C10_undocumented_parameters Sample.noEscape Sample.markHighlighter
           (Sample.fooItem None) "python" None 4
           [ {| plabel := LabelRange 4 5; pdocumentation := None |};
             {| plabel := LabelRange 7 8; pdocumentation := None |} ]).
  - reflexivity.
  - reflexivity.
  - intros p [<- | [<- | []]]; reflexivity.
  - lia.
Defined.

(** C10, counterexample. With the threshold [0] the one line of the
    trimmed details text is already more than the threshold: the empty
    details are collapsed and the result is not the code block followed by
    four newline characters. *)
Lemma C10_zero_threshold_counterexample :
  let m := signatureToMarkdown Sample.noEscape Sample.markHighlighter
             (Sample.fooItem None) "python" None 0 in
  result m
  = Returned (codeBlock "python" "foo(a, b)" ++ NL ++ NL
              ++ NL ++ "<details>" ++ NL ++ NL ++ "</details>")
  /\ result m
     <> Returned (codeBlock "python" "foo(a, b)" ++ NL ++ NL ++ NL ++ NL).
Proof.
  split; [reflexivity | discriminate].
Qed.

(** A popup on display hands its anchor to the next request, and the
    accepted response is shown there (scenario F of the specification). *)
Example anchor_reused :
  let self := Sample.self ["("; ","] {| line := 0; ch := 4 |} in
  let anchor := {| eline := 0; ech := Num 3 |} in
  let shown := Some ({| kind := "markdown"; value := "" |}, anchor) in
  exists self' request,
    result (_afterChange self shown "a" {| line := 0; ch := 4 |})
    = Returned (self', Some request)
    /\ tooltipCalls
         (settle Sample.noEscape Sample.markHighlighter
            Sample.cm_to_ce Sample.ce_to_cm Sample.offsetAtPosition
            Sample.positionAtOffset
            (Sample.self ["("; ","] {| line := 0; ch := 9 |})
            request (RHelp (Sample.fooHelp (Some 1))))
       = [TooltipHide;
          TooltipShowOrCreate
            {| kind := "markdown";
               value := Sample.markHighlighter "foo(a, b)" "b" "python"
                        ++ NL ++ NL ++ NL ++ NL |}
            anchor].
Proof.
  do 2 eexists. split; reflexivity.
Qed.

(** ** Signature documentation is not escaped *)

(** Documentation of the signature given as [MarkupContent] of a kind
    other than [plaintext] is taken as it is: [escapeMarkdown] plays no
    part, the details are the value, and a warning naming the kind is
    logged exactly when the kind is not [markdown]. *)
Theorem markup_documentation_is_verbatim :
  forall (escape escape' : string -> string) (item : SignatureInformation)
         (k v : string),
    documentation item = Some (DocMarkup k v) ->
    k <> "plaintext" ->
    signatureDetails escape item = signatureDetails escape' item
    /\ result (signatureDetails escape item) = Returned v
    /\ trace (signatureDetails escape item)
       = if String.eqb k "markdown" then []
         else [ConsoleWarn "Unknown MarkupContent kind:" k].
Proof.
  intros escape escape' item k v Hdoc Hk.
  unfold signatureDetails. rewrite Hdoc. simpl truthyDoc. cbv iota.
  apply String.eqb_neq in Hk. rewrite Hk.
  destruct (String.eqb k "markdown"); repeat split; reflexivity.
Qed.

(** ** Properties of the completion renderer *)

Lemma append_empty (s : string) : s ++ "" = s.
Proof. induction s as [| c s IH]; [reflexivity | simpl; rewrite IH; reflexivity]. Qed.

Lemma textContent_element (tagName : string) (attributes : list (string * string))
    (classes : list string) (children : list node) :
  textContent (Element tagName attributes classes children)
  = textOfNodes children.
Proof.
  induction children as [| c rest IH]; [reflexivity |].
  simpl in *. rewrite IH. reflexivity.
Qed.

Lemma elideNode_text (n : node) : textContent (fst (elideNode n)) = textContent n.
Proof.
  destruct n as [data | tagName attributes classes children]; [reflexivity |].
  unfold elideNode.
  destruct (String.eqb tagName "MARK"
            && negb (String.eqb
                       (textContent (Element tagName attributes classes children))
                       "")); [| reflexivity].
  cbn [fst]. rewrite (textContent_element tagName attributes _ [_]).
  cbn [textOfNodes]. rewrite (textContent_element "BDO").
  cbn [textOfNodes textContent]. rewrite !append_empty. reflexivity.
Qed.

Lemma elideNode_unmarked (n : node) :
  snd (elideNode n) = false -> fst (elideNode n) = n.
Proof.
  destruct n as [data | tagName attributes classes children]; [reflexivity |].
  unfold elideNode.
  destruct (String.eqb tagName "MARK"
            && negb (String.eqb
                       (textContent (Element tagName attributes classes children))
                       "")); [discriminate | reflexivity].
Qed.

Lemma elideLoop_text (ns : list node) :
  textOfNodes (fst (elideLoop ns)) = textOfNodes ns.
Proof.
  induction ns as [| n rest IH]; [reflexivity |].
  cbn [elideLoop]. pose proof (elideNode_text n) as Hn.
  destruct (elideNode n) as [n' marked].
  destruct (elideLoop rest) as [rest' hasMark].
  cbn [fst textOfNodes] in *. rewrite Hn, IH. reflexivity.
Qed.

Lemma elideLoop_unmarked (ns : list node) :
  snd (elideLoop ns) = false -> fst (elideLoop ns) = ns.
Proof.
  induction ns as [| n rest IH]; [reflexivity |].
  cbn [elideLoop]. pose proof (elideNode_unmarked n) as Hn.
  destruct (elideNode n) as [n' marked].
  destruct (elideLoop rest) as [rest' hasMark].
  cbn [fst snd] in *. intros H. apply orb_false_iff in H. destruct H as [H1 H2].
  rewrite (Hn H1), (IH H2). reflexivity.
Qed.

(** [_elideMark] changes no text: the text of the label and the text of
    the extra information are what they were. *)
Theorem elideMark_keeps_text :
  forall (item : option CompletionItem) (li li' : CompletionLI),
    _elideMark item li = Returned li' ->
    option_map textOfNodes (labelChildNodes li')
    = option_map textOfNodes (labelChildNodes li)
    /\ extraTextContent li' = extraTextContent li.
Proof.
  intros item li li' H. unfold _elideMark in H.
  destruct item as [i |]; [| inversion H; subst; split; reflexivity].
  destruct (negb (truthyString (type i)));
    [inversion H; subst; split; reflexivity |].
  destruct (negb (String.eqb (toLowerCase (orEmpty (type i))) "file")
            && negb (String.eqb (toLowerCase (orEmpty (type i))) "path"));
    [inversion H; subst; split; reflexivity |].
  destruct (labelChildNodes li) as [ns |] eqn:Hlabel; [| discriminate].
  pose proof (elideLoop_text ns) as Htext.
  destruct (elideLoop ns) as [children hasMark]. cbn [fst] in Htext.
  destruct hasMark; inversion H; subst;
    cbn [labelChildNodes extraTextContent option_map textOfNodes];
    split; try reflexivity.
  - rewrite textContent_element, append_empty, Htext. reflexivity.
  - rewrite Htext. reflexivity.
Qed.

Lemma elideLoop_wrapper (children : list node) :
  elideLoop [Element "DIV" [] ["lsp-elide-wrapper"] children]
  = ([Element "DIV" [] ["lsp-elide-wrapper"] children], false).
Proof. reflexivity. Qed.

(** Eliding the result of [_elideMark] again, whatever the text of the
    extra information has become, changes nothing. *)
Lemma elideMark_again (item : option CompletionItem) (li elided : CompletionLI)
    (extra : option string) :
  _elideMark item li = Returned elided ->
  _elideMark item {| labelChildNodes := labelChildNodes elided;
                     extraTextContent := extra |}
  = Returned {| labelChildNodes := labelChildNodes elided;
                extraTextContent := extra |}.
Proof.
  intros H. unfold _elideMark in *.
  destruct item as [i |]; [| reflexivity].
  destruct (negb (truthyString (type i))); [reflexivity |].
  destruct (negb (String.eqb (toLowerCase (orEmpty (type i))) "file")
            && negb (String.eqb (toLowerCase (orEmpty (type i))) "path"));
    [reflexivity |].
  destruct (labelChildNodes li) as [ns |] eqn:Hlabel; [| discriminate].
  pose proof (elideLoop_unmarked ns) as Hsame.
  destruct (elideLoop ns) as [children hasMark] eqn:Hloop.
  cbn [fst snd] in Hsame.
  destruct hasMark; inversion H; subst; cbn [labelChildNodes extraTextContent].
  - rewrite elideLoop_wrapper. reflexivity.
  - specialize (Hsame eq_refl). subst children. rewrite Hloop. reflexivity.
Qed.

(** [_elideMark] is idempotent: applied to its own result it changes
    nothing, so the label is never wrapped twice. *)
Theorem elideMark_idempotent :
  forall (item : option CompletionItem) (li li' : CompletionLI),
    _elideMark item li = Returned li' ->
    _elideMark item li' = Returned li'.
Proof.
  intros item li li' H.
  pose proof (elideMark_again item li li' (extraTextContent li') H) as Hagain.
  destruct li' as [label extra]. exact Hagain.
Qed.

(** [_elideMark] throws exactly when the type of the item, in lower case,
    is [file] or [path] and the list item has no label element; for every
    other type the list item is returned as it is. *)
Theorem elideMark_throws_iff :
  forall (item : option CompletionItem) (li : CompletionLI),
    ((exists e, _elideMark item li = Threw e)
     <-> exists i, item = Some i
                   /\ (toLowerCase (orEmpty (type i)) = "file"
                       \/ toLowerCase (orEmpty (type i)) = "path")
                   /\ labelChildNodes li = None)
    /\ ((forall i, item = Some i ->
                   toLowerCase (orEmpty (type i)) <> "file"
                   /\ toLowerCase (orEmpty (type i)) <> "path") ->
        _elideMark item li = Returned li).
Proof.
  intros item li. unfold _elideMark.
  assert (Hlower : forall s, toLowerCase s = "" -> s = "").
  { intros [| c s]; [reflexivity | discriminate]. }
  destruct item as [i |].
  2:{ split; [| reflexivity].
      split; [intros [e He]; discriminate | intros (i & Hi & _); discriminate]. }
  destruct (truthyString (type i)) eqn:Htruthy; cbn [negb].
  2:{ split; [| reflexivity]. split; [intros [e He]; discriminate |].
      intros (i' & Hi & Htype & _). inversion Hi; subst i'.
      unfold truthyString in Htruthy.
      destruct (type i) as [s |]; cbn [orEmpty] in Htype.
      - apply negb_false_iff, String.eqb_eq in Htruthy. subst s.
        destruct Htype; discriminate.
      - destruct Htype; discriminate. }
  destruct (String.eqb_spec (toLowerCase (orEmpty (type i))) "file") as [Hf | Hf];
    destruct (String.eqb_spec (toLowerCase (orEmpty (type i))) "path") as [Hp | Hp];
    cbn [negb andb].
  - rewrite Hf in Hp. discriminate.
  - split.
    + destruct (labelChildNodes li) as [ns |].
      * destruct (elideLoop ns) as [children [|]].
        -- split; [intros [e He]; discriminate |].
           intros (i' & _ & _ & H). discriminate.
        -- split; [intros [e He]; discriminate |].
           intros (i' & _ & _ & H). discriminate.
      * split; [intros _; exists i; auto | intros _; eexists; reflexivity].
    + intros H. destruct (H i eq_refl) as [H1 _]. contradiction.
  - split.
    + destruct (labelChildNodes li) as [ns |].
      * destruct (elideLoop ns) as [children [|]].
        -- split; [intros [e He]; discriminate |].
           intros (i' & _ & _ & H). discriminate.
        -- split; [intros [e He]; discriminate |].
           intros (i' & _ & _ & H). discriminate.
      * split; [intros _; exists i; auto | intros _; eexists; reflexivity].
    + intros H. destruct (H i eq_refl) as [_ H2]. contradiction.
  - split; [| reflexivity]. split; [intros [e He]; discriminate |].
    intros (i' & Hi & [H | H] & _); inversion Hi; subst i'; contradiction.
Qed.

Lemma elideMark_frame (item : option CompletionItem) (label : option (list node))
    (extra extra' : option string) :
  _elideMark item {| labelChildNodes := label; extraTextContent := extra' |}
  = mapOutcome
      (fun li => {| labelChildNodes := labelChildNodes li;
                    extraTextContent := extra' |})
      (_elideMark item {| labelChildNodes := label; extraTextContent := extra |}).
Proof.
  unfold _elideMark.
  destruct item as [i |]; [| reflexivity].
  destruct (negb (truthyString (type i))); [reflexivity |].
  destruct (negb (String.eqb (toLowerCase (orEmpty (type i))) "file")
            && negb (String.eqb (toLowerCase (orEmpty (type i))) "path"));
    [reflexivity |].
  cbn [labelChildNodes extraTextContent].
  destruct label as [ns |]; [| reflexivity].
  destruct (elideLoop ns) as [children [|]]; reflexivity.
Qed.

(** When the extra information is empty or undefined, as for an
    unrecognized [labelExtra], [updateExtraInfo] leaves the list item as it
    is: it neither writes the text nor elides the label, and does not need
    the element for the extra information to exist. *)
Theorem updateExtraInfo_without_text :
  forall (labelExtra : string) (item : option CompletionItem)
         (li : CompletionLI) (extraText : option string),
    result (getExtraInfo labelExtra item) = Returned extraText ->
    truthyString extraText = false ->
    result (updateExtraInfo labelExtra item li) = Returned li
    /\ trace (updateExtraInfo labelExtra item li)
       = trace (getExtraInfo labelExtra item).
Proof.
  intros labelExtra item li extraText Hget Hfalsy.
  unfold updateExtraInfo. rewrite result_bind, trace_bind, Hget, Hfalsy.
  simpl. rewrite app_nil_r. split; reflexivity.
Qed.

(** With extra information to show, [updateExtraInfo] writes it to the
    element for the extra information and elides the label; without that
    element it throws. *)
Theorem updateExtraInfo_with_text :
  forall (labelExtra : string) (item : option CompletionItem)
         (li : CompletionLI) (extraText : option string),
    result (getExtraInfo labelExtra item) = Returned extraText ->
    truthyString extraText = true ->
    result (updateExtraInfo labelExtra item li)
    = match extraTextContent li with
      | None =>
          Threw (TypeError
                   "Cannot set properties of undefined (setting 'textContent')")
      | Some _ =>
          mapOutcome
            (fun elided => {| labelChildNodes := labelChildNodes elided;
                              extraTextContent := extraText |})
            (_elideMark item li)
      end.
Proof.
  intros labelExtra item li extraText Hget Htruthy.
  unfold updateExtraInfo. rewrite result_bind, Hget, Htruthy.
  destruct li as [label extra]. cbn [extraTextContent labelChildNodes].
  destruct extra as [old |]; [| reflexivity].
  rewrite (elideMark_frame item label (Some old) extraText).
  destruct (_elideMark item
              {| labelChildNodes := label; extraTextContent := Some old |});
    reflexivity.
Qed.

(** [createCompletionItemNode] elides the label twice, once inside
    [updateExtraInfo] and once directly; the label it ends with is the one
    a single [_elideMark] gives. *)
Theorem decorateItemNode_elides_once :
  forall (labelExtra : string) (item : option CompletionItem)
         (li li'' : CompletionLI),
    result (decorateItemNode labelExtra item li) = Returned li'' ->
    exists elided,
      _elideMark item li = Returned elided
      /\ labelChildNodes li'' = labelChildNodes elided.
Proof.
  intros labelExtra item li li'' H.
  unfold decorateItemNode in H. rewrite result_bind in H.
  unfold updateExtraInfo in H. rewrite result_bind in H.
  destruct (result (getExtraInfo labelExtra item)) as [extraText | e];
    [| discriminate].
  destruct (truthyString extraText).
  - destruct li as [label extra]. cbn [extraTextContent labelChildNodes] in H.
    destruct extra as [old |]; [| discriminate].
    rewrite (elideMark_frame item label (Some old) extraText) in H.
    destruct (_elideMark item
                {| labelChildNodes := label; extraTextContent := Some old |})
      as [elided | e] eqn:Helide; [| discriminate].
    cbn [mapOutcome] in H. cbn [result ret snd] in H.
    exists elided. split; [reflexivity |].
    pose proof (elideMark_again item _ elided extraText Helide) as Hagain.
    rewrite Hagain in H. inversion H; subst. reflexivity.
  - cbn [result ret snd] in H.
    destruct (_elideMark item li) as [elided | e]; [| discriminate].
    inversion H; subst. exists li''. split; reflexivity.
Qed.

Lemma toLowerCase_truthy (x : option string) :
  truthyString (option_map toLowerCase x) = truthyString x.
Proof.
  destruct x as [[| c s] |]; reflexivity.
Qed.

(** With [labelExtra] set to ['auto'], [getExtraInfo] returns the detail
    if it is not empty, else the type in lower case if it is not empty,
    else the name of the source if it is not empty, else [undefined]; it
    never returns the empty string and never warns. *)
Theorem getExtraInfo_auto :
  forall (item : option CompletionItem),
    let itemDetail := match item with Some i => detail i | None => None end in
    let itemType := match item with Some i => type i | None => None end in
    let itemSource :=
      match item with Some i => sourceName i | None => None end in
    let expected :=
      if truthyString itemDetail then itemDetail
      else if truthyString itemType then option_map toLowerCase itemType
      else if truthyString itemSource then itemSource
      else None in
    getExtraInfo "auto" item = ([], Returned expected)
    /\ expected <> Some "".
Proof.
  intros item itemDetail itemType itemSource expected.
  assert (Hne : expected <> Some "").
  { subst expected.
    destruct itemDetail as [[| c s] |]; cbn; try discriminate;
      destruct itemType as [[| c' s'] |]; cbn; try discriminate;
      destruct itemSource as [[| c'' s''] |]; cbn; discriminate. }
  split; [| exact Hne].
  unfold getExtraInfo. cbn [String.eqb Ascii.eqb Bool.eqb andb].
  fold itemDetail itemType itemSource. unfold firstTruthy. cbn [filter].
  subst expected.
  rewrite toLowerCase_truthy.
  destruct itemDetail as [[| c s] |]; cbn [orEmpty truthyString String.eqb negb];
    destruct (truthyString itemType);
    destruct (truthyString itemSource) eqn:Hs; try reflexivity.
Qed.

Lemma mapSet_same (w : ActivationMap) (k : nat) (v : bool) :
  mapSet w k v k = Some v.
Proof. unfold mapSet. rewrite Nat.eqb_refl. reflexivity. Qed.

Lemma mapSet_other (w : ActivationMap) (k e : nat) (v : bool) :
  e <> k -> mapSet w k v e = w e.
Proof.
  intros H. unfold mapSet. apply Nat.eqb_neq in H. rewrite H. reflexivity.
Qed.

(** For every list item, the activity observer emits [activeChanged] once
    per activation: as often as a mutation of that item shows it active
    while the mutation of it before showed it inactive (or, for the first
    one, while it was not recorded as activated). Mutations of other nodes
    do not count. *)
Theorem activityObserver_emits_on_activation :
  forall (mutations : list Mutation) (wasActivated : ActivationMap) (li : nat),
    filter (Nat.eqb li) (snd (activityObserver wasActivated mutations))
    = repeat li
        (risingEdges (negb (falsyFlag (wasActivated li)))
           (map targetActive
              (filter (fun m => targetIsLI m && Nat.eqb (target m) li)
                 mutations))).
Proof.
  induction mutations as [| m rest IH]; intros w li; [reflexivity |].
  cbn [activityObserver filter].
  unfold activityStep.
  destruct (targetIsLI m) eqn:Hli; cbn [negb andb].
  2:{ specialize (IH w li). destruct (activityObserver w rest) as [w' later].
      cbn [snd] in *. exact IH. }
  destruct (Nat.eqb_spec (target m) li) as [Heq | Hneq].
  - subst li. cbn [map risingEdges].
    destruct (targetActive m) eqn:Hact.
    + destruct (falsyFlag (w (target m))) eqn:Hflag.
      * specialize (IH (mapSet w (target m) true) (target m)).
        destruct (activityObserver (mapSet w (target m) true) rest)
          as [w' later].
        cbn [snd filter] in *. rewrite Nat.eqb_refl, IH, mapSet_same.
        reflexivity.
      * specialize (IH w (target m)).
        destruct (activityObserver w rest) as [w' later].
        cbn [snd] in *. rewrite IH, Hflag. reflexivity.
    + specialize (IH (mapSet w (target m) false) (target m)).
      destruct (activityObserver (mapSet w (target m) false) rest)
        as [w' later].
      cbn [snd] in *. rewrite IH, mapSet_same. reflexivity.
  - assert (Hneq' : li <> target m) by congruence.
    destruct (targetActive m).
    + destruct (falsyFlag (w (target m))).
      * specialize (IH (mapSet w (target m) true) li).
        destruct (activityObserver (mapSet w (target m) true) rest)
          as [w' later].
        cbn [snd filter] in *.
        destruct (Nat.eqb_spec li (target m)); [contradiction |].
        rewrite IH, mapSet_other by exact Hneq'. reflexivity.
      * specialize (IH w li).
        destruct (activityObserver w rest) as [w' later].
        cbn [snd] in *. exact IH.
    + specialize (IH (mapSet w (target m) false) li).
      destruct (activityObserver (mapSet w (target m) false) rest)
        as [w' later].
      cbn [snd] in *. rewrite IH, mapSet_other by exact Hneq'. reflexivity.
Qed.

(** ** Properties of [findActiveAdapter] and of the getter
    [signatureCharacters] *)

(** [findActiveAdapter] returns no adapter for a current widget; without
    one it returns the first adapter that has no widget. An adapter that
    has a widget is never returned. *)
Theorem findActiveAdapter_never_with_widget :
  forall (adapters : list Adapter) (currentWidget : option nat),
    (forall w, currentWidget = Some w ->
               findActiveAdapter adapters currentWidget = None)
    /\ (forall a, findActiveAdapter adapters currentWidget = Some a ->
                  currentWidget = None /\ widget a = None /\ In a adapters)
    /\ (currentWidget = None ->
        findActiveAdapter adapters currentWidget
        = find (fun a => negb (isSet (widget a))) adapters).
Proof.
  intros adapters currentWidget. unfold findActiveAdapter. split; [| split].
  - intros w ->. reflexivity.
  - intros a H. destruct currentWidget as [w |]; [discriminate |].
    apply find_some in H. destruct H as [Hin Hloose].
    destruct (widget a); [discriminate |]. auto.
  - intros ->. induction adapters as [| a rest IH]; [reflexivity |].
    simpl. destruct (widget a); simpl; [exact IH | reflexivity].
Qed.

(** Once the getter has returned a non-empty list, it returns that list
    ever after, whatever the server capabilities have become; as long as
    it returned the empty list, it reads the capabilities again. *)
Theorem signatureCharacters_cache :
  forall (cached : option (list string))
         (triggerCharacters triggerCharacters' : option (list string))
         (characters : list string) (cached' : option (list string)),
    signatureCharactersGetter cached triggerCharacters
    = (characters, cached') ->
    (characters <> [] ->
     signatureCharactersGetter cached' triggerCharacters'
     = (characters, cached'))
    /\ (characters = [] ->
        fst (signatureCharactersGetter cached' triggerCharacters')
        = match triggerCharacters' with Some cs => cs | None => [] end).
Proof.
  intros cached caps caps' characters cached' H.
  unfold signatureCharactersGetter in H.
  destruct cached as [[| c cs] |]; inversion H; subst; clear H; split;
    intros Hc; try congruence;
    try (destruct caps as [[| c cs] |]; cbn in *; congruence).
  reflexivity.
Qed.

(** ** The further properties at sample inputs *)

Lemma extractLead_lead_is_plain_witness :
  plainText (lead {| lead := "a";
                     remainder := "b" ++ NL ++ "c" ++ NL ++ "d" |}).
Proof.
  apply (extractLead_lead_is_plain ["a"; ""; "b"; "c"; "d"] (-3)).
  reflexivity.
Defined.

Lemma extractLead_reassembles_witness :
  let lines := ["one"; "two"; "  "; "four"; "five"; "six"] in
  let sp := {| lead := "one" ++ NL ++ "two";
               remainder := "four" ++ NL ++ "five" ++ NL ++ "six" |} in
  exists (leadLines : list string) (blank : string) (rest : list string),
    lines = (leadLines ++ blank :: rest)%list
    /\ trim blank = ""
    /\ Forall (fun l => trim l <> "") leadLines
    /\ lead sp = join_nl leadLines
    /\ remainder sp = join_nl rest.
Proof.
  apply (extractLead_reassembles
           ["one"; "two"; "  "; "four"; "five"; "six"] 4).
  reflexivity.
Defined.

Lemma extractLead_needs_blank_line_witness :
  extractLead ["one"; "two"; "three"] 4 = None.
Proof.
  apply (extractLead_needs_blank_line ["one"; "two"; "three"] 4).
  intros l [<- | [<- | [<- | []]]]; discriminate.
Defined.

Lemma own_active_parameter_overrides_fallback_witness :
  signatureToMarkdown Sample.noEscape Sample.markHighlighter
    (Sample.fooItem (Some 1)) "python" (Some 0) 4
  = signatureToMarkdown Sample.noEscape Sample.markHighlighter
      (Sample.fooItem (Some 1)) "python" None 4.
Proof.
  apply (own_active_parameter_overrides_fallback Sample.noEscape
           Sample.markHighlighter (Sample.fooItem (Some 1)) "python"
           (Some 0) None 4).
  discriminate.
Defined.

Lemma active_parameter_in_range_is_highlighted_witness :
  let item := Sample.fooItem None in
  let m := signatureToMarkdown Sample.noEscape Sample.markHighlighter
             item "python" (Some 1) 4 in
  filter isHighlight (trace m) = [Highlight "foo(a, b)" "b" "python"]
  /\ result m
     = Returned (appendDetails
                   (Sample.markHighlighter "foo(a, b)" "b" "python")
                   (detailsOf Sample.noEscape item) 4).
Proof.
  apply (active_parameter_in_range_is_highlighted Sample.noEscape
           Sample.markHighlighter (Sample.fooItem None) "python" (Some 1) 4
           [ {| plabel := LabelRange 4 5; pdocumentation := None |};
             {| plabel := LabelRange 7 8; pdocumentation := None |} ]
           1 {| plabel := LabelRange 7 8; pdocumentation := None |}).
  - reflexivity.
  - reflexivity.
  - lia.
  - reflexivity.
Defined.

Lemma documentation_repeating_label_is_dropped_witness :
  result (signatureDetails Sample.noEscape Sample.echoedItem) = Returned ""
  /\ trace (signatureDetails Sample.noEscape Sample.echoedItem) = []
  /\ result (signatureToMarkdown Sample.noEscape Sample.markHighlighter
               Sample.echoedItem "python" None 4)
     = mapOutcome (fun markdown => markdown ++ NL)
         (result (labelMarkdown Sample.markHighlighter Sample.echoedItem
                    "python" None)).
Proof.
  apply (documentation_repeating_label_is_dropped Sample.noEscape
           Sample.markHighlighter Sample.echoedItem "python" None 4
           ("  f(x) " ++ NL ++ "f(x)")).
  - left. split; [reflexivity | discriminate].
  - repeat constructor.
Defined.

(** The same documentation as [MarkupContent] of kind [plaintext]. *)
Example documentation_repeating_label_plaintext_markup :
  signatureToMarkdown Sample.noEscape Sample.markHighlighter
    {| label := "f(x)";
       documentation := Some (DocMarkup "plaintext" ("  f(x) " ++ NL ++ "f(x)"));
       parameters := Some [ {| plabel := LabelString "x";
                               pdocumentation := Some (DocString "a number") |} ];
       activeParameter := Undefined |} "python" None 4
  = ([], Returned (codeBlock "python" "f(x)" ++ NL)).
Proof. reflexivity. Qed.

(** An own active parameter of [null] is kept: the fallback is not used
    and the label is not highlighted. *)
Example own_null_active_parameter :
  signatureToMarkdown Sample.noEscape Sample.markHighlighter
    {| label := "foo(a, b)";
       documentation := None;
       parameters := Some [ {| plabel := LabelRange 4 5; pdocumentation := None |};
                            {| plabel := LabelRange 7 8; pdocumentation := None |} ];
       activeParameter := Null |} "python" (Some 2) 4
  = ([], Returned (codeBlock "python" "foo(a, b)" ++ NL ++ NL ++ NL ++ NL)).
Proof. reflexivity. Qed.

Lemma markup_documentation_is_verbatim_witness :
  let item := {| label := "f(x)";
                 documentation := Some (DocMarkup "html" "<b>f</b>");
                 parameters := None;
                 activeParameter := Undefined |} in
  signatureDetails Sample.noEscape item
  = signatureDetails toLowerCase item
  /\ result (signatureDetails Sample.noEscape item) = Returned "<b>f</b>"
  /\ trace (signatureDetails Sample.noEscape item)
     = if String.eqb "html" "markdown" then []
       else [ConsoleWarn "Unknown MarkupContent kind:" "html"].
Proof.
  apply (markup_documentation_is_verbatim Sample.noEscape toLowerCase
           {| label := "f(x)";
              documentation := Some (DocMarkup "html" "<b>f</b>");
              parameters := None;
              activeParameter := Undefined |} "html" "<b>f</b>").
  - reflexivity.
  - discriminate.
Defined.

Lemma active_signature_alone_is_formatted_witness :
  let self := Sample.self ["("] {| line := 0; ch := 4 |} in
  let one := signatureToMarkdown Sample.noEscape Sample.markHighlighter
               (Sample.fooItem None) "python" (Some 1) (maxLines self) in
  let m := get_markup_for_signature_help Sample.noEscape
             Sample.markHighlighter self Sample.firstActive "python" in
  trace m = trace one
  /\ result m
     = mapOutcome (fun markdown => {| kind := "markdown"; value := markdown |})
         (result one).
Proof.
  apply (active_signature_alone_is_formatted Sample.noEscape
           Sample.markHighlighter
           (Sample.self ["("] {| line := 0; ch := 4 |})
           Sample.firstActive "python" 0 (Sample.fooItem None)).
  - reflexivity.
  - lia.
  - reflexivity.
Defined.

Lemma response_without_focus_is_removed_witness :
  let m := handleSignature Sample.noEscape Sample.markHighlighter
             Sample.cm_to_ce Sample.ce_to_cm Sample.offsetAtPosition
             Sample.positionAtOffset Sample.unfocused
             (RHelp (Sample.fooHelp (Some 1))) {| line := 0; ch := 4 |} None in
  result m = Returned tt
  /\ tooltipCalls m = [TooltipHide; TooltipRemove]
  /\ forall t : Tooltip, runTooltip t (trace m) = None.
Proof.
  apply (response_without_focus_is_removed Sample.noEscape
           Sample.markHighlighter Sample.cm_to_ce Sample.ce_to_cm
           Sample.offsetAtPosition Sample.positionAtOffset Sample.unfocused
           (Sample.fooHelp (Some 1)) {| line := 0; ch := 4 |} None).
  - discriminate.
  - reflexivity.
Defined.

Lemma accepted_response_is_shown_witness :
  let self := Sample.self ["("] {| line := 0; ch := 9 |} in
  let formatted :=
    get_markup_for_signature_help Sample.noEscape Sample.markHighlighter
      self (Sample.fooHelp (Some 1)) "python" in
  let m := handleSignature Sample.noEscape Sample.markHighlighter
             Sample.cm_to_ce Sample.ce_to_cm Sample.offsetAtPosition
             Sample.positionAtOffset self (RHelp (Sample.fooHelp (Some 1)))
             {| line := 0; ch := 4 |} None in
  (forall markup,
      result formatted = Returned markup ->
      result m = Returned tt
      /\ tooltipCalls m
         = [TooltipHide;
            TooltipShowOrCreate markup {| eline := 0; ech := Num 3 |}])
  /\ (forall e,
         result formatted = Threw e ->
         result m = Threw e /\ tooltipCalls m = [TooltipHide])
  /\ (existsb isShowOrCreate (tooltipCalls m) = true
      <-> exists markup, result formatted = Returned markup).
Proof.
  apply (accepted_response_is_shown Sample.noEscape Sample.markHighlighter
           Sample.cm_to_ce Sample.ce_to_cm Sample.offsetAtPosition
           Sample.positionAtOffset
           (Sample.self ["("] {| line := 0; ch := 9 |})
           (Sample.fooHelp (Some 1)) {| line := 0; ch := 4 |} None).
  - discriminate.
  - discriminate.
  - reflexivity.
  - simpl. lia.
  - reflexivity.
Defined.

Lemma C7_anchor_of_accepted_response_witness :
  let self := Sample.self ["("] {| line := 0; ch := 4 |} in
  let request := {| position_at_request := {| line := 0; ch := 4 |};
                    previousPosition := None |} in
  let markup :=
    {| kind := "markdown";
       value := Sample.markHighlighter "foo(a, b)" "b" "python"
                ++ NL ++ NL ++ NL ++ NL |} in
  issued self None request
  /\ readLater (signatureCharacters self) (signatureCharacters self)
  /\ exists anchor,
       tooltipCalls
         (settle Sample.noEscape Sample.markHighlighter Sample.cm_to_ce
            Sample.ce_to_cm Sample.offsetAtPosition Sample.positionAtOffset
            self request (RHelp (Sample.fooHelp (Some 1))))
       = [TooltipHide; TooltipShowOrCreate markup anchor]
       /\ anchor = {| eline := 0; ech := Num 3 |}.
Proof.
  intros self request markup.
  assert (Hissued : issued self None request).
  { left. exists "(", {| line := 0; ch := 4 |}, self. reflexivity. }
  assert (Hread : readLater (signatureCharacters self)
                    (signatureCharacters self)).
  { exists None, (Some ["("]), [], (Some ["("]). split; reflexivity. }
  split; [exact Hissued |]. split; [exact Hread |].
  destruct (C7_anchor_of_accepted_response Sample.noEscape
              Sample.markHighlighter Sample.cm_to_ce Sample.ce_to_cm
              Sample.offsetAtPosition Sample.positionAtOffset
              self None request self (Sample.fooHelp (Some 1)) Hissued Hread)
    with (markup := markup) as (anchor & Hcalls & _ & Hnone).
  - discriminate.
  - discriminate.
  - reflexivity.
  - simpl. lia.
  - reflexivity.
  - reflexivity.
  - exists anchor. split; [exact Hcalls |].
    destruct (proj1 (Hnone eq_refl)) as (m & c & Hin & Hm & _ & Hanchor).
    { exists "(". split; [left; reflexivity | discriminate]. }
    destruct Hin as [<- | []]. rewrite Hanchor, <- Hm. reflexivity.
Defined.

Lemma anchorFromTrigger_last_occurrence_witness :
  let self := Sample.self [","; "("] {| line := 0; ch := 4 |} in
  let editor_position := {| eline := 0; ech := Num 4 |} in
  let subset := "foo(" in
  exists m character,
    In character (signatureCharacters self)
    /\ lastIndexOf character subset = m
    /\ (forall other, In other (signatureCharacters self) ->
                      lastIndexOf other subset <= m)
    /\ anchorFromTrigger Sample.cm_to_ce Sample.ce_to_cm
         Sample.offsetAtPosition Sample.positionAtOffset self Sample.editor
         editor_position
       = Sample.ce_to_cm (Sample.positionAtOffset (Num m) ["foo("]).
Proof.
  apply (anchorFromTrigger_last_occurrence Sample.cm_to_ce Sample.ce_to_cm
           Sample.offsetAtPosition Sample.positionAtOffset
           (Sample.self [","; "("] {| line := 0; ch := 4 |}) Sample.editor
           {| eline := 0; ech := Num 4 |}).
  exists "(". split; [right; left; reflexivity | discriminate].
Defined.

Lemma anchorFromTrigger_no_occurrence_witness :
  anchorFromTrigger Sample.cm_to_ce Sample.ce_to_cm Sample.offsetAtPosition
    Sample.positionAtOffset (Sample.self [","] {| line := 0; ch := 4 |})
    Sample.editor {| eline := 0; ech := Num 4 |}
  = {| eline := 0; ech := Num 4 |}.
Proof.
  apply (anchorFromTrigger_no_occurrence Sample.cm_to_ce Sample.ce_to_cm
           Sample.offsetAtPosition Sample.positionAtOffset
           (Sample.self [","] {| line := 0; ch := 4 |}) Sample.editor
           {| eline := 0; ech := Num 4 |}).
  - discriminate.
  - intros character [<- | []]. reflexivity.
Defined.

Lemma request_then_response_witness :
  let self := Sample.self ["("] {| line := 0; ch := 4 |} in
  let m := settle Sample.noEscape Sample.markHighlighter Sample.cm_to_ce
             Sample.ce_to_cm Sample.offsetAtPosition Sample.positionAtOffset
             (set_signatureCharacter self {| line := 0; ch := 4 |})
             {| position_at_request := {| line := 0; ch := 4 |};
                previousPosition := None |}
             (RHelp (Sample.fooHelp (Some 1))) in
  result m = Returned tt
  /\ tooltipCalls m
     = [TooltipHide;
        TooltipShowOrCreate
          {| kind := "markdown";
             value := Sample.markHighlighter "foo(a, b)" "b" "python"
                      ++ NL ++ NL ++ NL ++ NL |}
          {| eline := 0; ech := Num 3 |}].
Proof.
  apply (request_then_response Sample.noEscape Sample.markHighlighter
           Sample.cm_to_ce Sample.ce_to_cm Sample.offsetAtPosition
           Sample.positionAtOffset
           (Sample.self ["("] {| line := 0; ch := 4 |})
           (set_signatureCharacter
              (Sample.self ["("] {| line := 0; ch := 4 |})
              {| line := 0; ch := 4 |})
           {| position_at_request := {| line := 0; ch := 4 |};
              previousPosition := None |}
           None (Sample.fooHelp (Some 1))).
  - reflexivity.
  - discriminate.
  - reflexivity.
Defined.

Lemma onCursorActivity_request_witness :
  let self := Sample.self ["("] {| line := 0; ch := 9 |} in
  exists markup anchor,
    Sample.shownTooltip = Some (markup, anchor)
    /\ (let position :=
          root_position_to_editor self (get_cursor_position self) in
        (eline position =? eline anchor) && jsLt (ech position) (ech anchor)
        = false)
    /\ isReady self = true
    /\ signatureHelpProvider self = true
    /\ {| position_at_request := {| line := 0; ch := 9 |};
          previousPosition := Some {| eline := 0; ech := Num 3 |} |}
       = {| position_at_request := get_cursor_position self;
            previousPosition := Some anchor |}
    /\ set_signatureCharacter self {| line := 0; ch := 9 |}
       = set_signatureCharacter self (get_cursor_position self)
    /\ tooltipCalls (onCursorActivity self Sample.shownTooltip) = [].
Proof.
  apply (onCursorActivity_request
           (Sample.self ["("] {| line := 0; ch := 9 |})
           (set_signatureCharacter
              (Sample.self ["("] {| line := 0; ch := 9 |})
              {| line := 0; ch := 9 |})
           Sample.shownTooltip
           {| position_at_request := {| line := 0; ch := 9 |};
              previousPosition := Some {| eline := 0; ech := Num 3 |} |}).
  reflexivity.
Defined.

Lemma refresh_keeps_anchor_witness :
  let self := Sample.self ["("] {| line := 0; ch := 9 |} in
  tooltipCalls
    (settle Sample.noEscape Sample.markHighlighter Sample.cm_to_ce
       Sample.ce_to_cm Sample.offsetAtPosition Sample.positionAtOffset
       (set_signatureCharacter self {| line := 0; ch := 9 |})
       {| position_at_request := {| line := 0; ch := 9 |};
          previousPosition := Some {| eline := 0; ech := Num 3 |} |}
       (RHelp (Sample.fooHelp (Some 1))))
  = [TooltipHide;
     TooltipShowOrCreate
       {| kind := "markdown";
          value := Sample.markHighlighter "foo(a, b)" "b" "python"
                   ++ NL ++ NL ++ NL ++ NL |}
       {| eline := 0; ech := Num 3 |}].
Proof.
  apply (refresh_keeps_anchor Sample.noEscape Sample.markHighlighter
           Sample.cm_to_ce Sample.ce_to_cm Sample.offsetAtPosition
           Sample.positionAtOffset
           (Sample.self ["("] {| line := 0; ch := 9 |})
           (set_signatureCharacter
              (Sample.self ["("] {| line := 0; ch := 9 |})
              {| line := 0; ch := 9 |})
           {| kind := "markdown"; value := "" |}
           {| eline := 0; ech := Num 3 |}
           {| position_at_request := {| line := 0; ch := 9 |};
              previousPosition := Some {| eline := 0; ech := Num 3 |} |}
           (Sample.fooHelp (Some 1))
           {| kind := "markdown";
              value := Sample.markHighlighter "foo(a, b)" "b" "python"
                       ++ NL ++ NL ++ NL ++ NL |}).
  - reflexivity.
  - discriminate.
  - reflexivity.
  - reflexivity.
Defined.

(** The label of a path after eliding: the mark holds one [bdo] with the
    matched text, and the whole label sits in one wrapper. *)
Example elideMark_path :
  _elideMark (Some Sample.pathItem) Sample.pathLI
  = Returned
      {| labelChildNodes :=
           Some [Element "DIV" [] ["lsp-elide-wrapper"]
                   [TextNode "src/";
                    Element "MARK" [] ["lsp-elide"]
                      [Element "BDO" [("dir", "ltr"); ("title", "ma")] []
                         [TextNode "ma"]];
                    TextNode "in.py"]];
         extraTextContent := Some "" |}.
Proof. reflexivity. Qed.

Lemma elideMark_keeps_text_witness :
  option_map textOfNodes
    (labelChildNodes
       {| labelChildNodes :=
            Some [Element "DIV" [] ["lsp-elide-wrapper"]
                    [TextNode "src/";
                     Element "MARK" [] ["lsp-elide"]
                       [Element "BDO" [("dir", "ltr"); ("title", "ma")] []
                          [TextNode "ma"]];
                     TextNode "in.py"]];
          extraTextContent := Some "" |})
  = option_map textOfNodes (labelChildNodes Sample.pathLI)
  /\ Some "" = extraTextContent Sample.pathLI.
Proof.
  apply (elideMark_keeps_text (Some Sample.pathItem) Sample.pathLI
           {| labelChildNodes :=
                Some [Element "DIV" [] ["lsp-elide-wrapper"]
                        [TextNode "src/";
                         Element "MARK" [] ["lsp-elide"]
                           [Element "BDO" [("dir", "ltr"); ("title", "ma")] []
                              [TextNode "ma"]];
                         TextNode "in.py"]];
              extraTextContent := Some "" |}).
  reflexivity.
Defined.

Lemma elideMark_idempotent_witness :
  let elided :=
    {| labelChildNodes :=
         Some [Element "DIV" [] ["lsp-elide-wrapper"]
                 [TextNode "src/";
                  Element "MARK" [] ["lsp-elide"]
                    [Element "BDO" [("dir", "ltr"); ("title", "ma")] []
                       [TextNode "ma"]];
                  TextNode "in.py"]];
       extraTextContent := Some "" |} in
  _elideMark (Some Sample.pathItem) elided = Returned elided.
Proof.
  apply (elideMark_idempotent (Some Sample.pathItem) Sample.pathLI).
  reflexivity.
Defined.

Lemma updateExtraInfo_without_text_witness :
  let li := {| labelChildNodes := None; extraTextContent := None |} in
  result (updateExtraInfo "everything" (Some Sample.pathItem) li) = Returned li
  /\ trace (updateExtraInfo "everything" (Some Sample.pathItem) li)
     = trace (getExtraInfo "everything" (Some Sample.pathItem)).
Proof.
  apply (updateExtraInfo_without_text "everything" (Some Sample.pathItem)
           {| labelChildNodes := None; extraTextContent := None |}
           (Some "")); reflexivity.
Defined.

Lemma updateExtraInfo_with_text_witness :
  result (updateExtraInfo "auto" (Some Sample.pathItem) Sample.pathLI)
  = match extraTextContent Sample.pathLI with
    | None =>
        Threw (TypeError
                 "Cannot set properties of undefined (setting 'textContent')")
    | Some _ =>
        mapOutcome
          (fun elided => {| labelChildNodes := labelChildNodes elided;
                            extraTextContent := Some "path" |})
          (_elideMark (Some Sample.pathItem) Sample.pathLI)
    end.
Proof.
  apply (updateExtraInfo_with_text "auto" (Some Sample.pathItem)
           Sample.pathLI (Some "path")); reflexivity.
Defined.

Lemma decorateItemNode_elides_once_witness :
  let li'' :=
    {| labelChildNodes :=
         Some [Element "DIV" [] ["lsp-elide-wrapper"]
                 [TextNode "src/";
                  Element "MARK" [] ["lsp-elide"]
                    [Element "BDO" [("dir", "ltr"); ("title", "ma")] []
                       [TextNode "ma"]];
                  TextNode "in.py"]];
       extraTextContent := Some "path" |} in
  exists elided,
    _elideMark (Some Sample.pathItem) Sample.pathLI = Returned elided
    /\ labelChildNodes li'' = labelChildNodes elided.
Proof.
  apply (decorateItemNode_elides_once "auto" (Some Sample.pathItem)
           Sample.pathLI).
  reflexivity.
Defined.

(** Two activations of the list item 1, with a mutation of another item
    and a repeated mutation in between. *)
Example activityObserver_sample :
  snd (activityObserver (fun _ => None)
         [ {| target := 1; targetIsLI := true; targetActive := true |};
           {| target := 1; targetIsLI := true; targetActive := true |};
           {| target := 2; targetIsLI := true; targetActive := true |};
           {| target := 1; targetIsLI := true; targetActive := false |};
           {| target := 3; targetIsLI := false; targetActive := true |};
           {| target := 1; targetIsLI := true; targetActive := true |} ])
  = [1%nat; 2%nat; 1%nat].
Proof. reflexivity. Qed.

Lemma signatureCharacters_cache_witness :
  (["("; ","] <> [] ->
   signatureCharactersGetter (Some ["("; ","]) None
   = (["("; ","], Some ["("; ","]))
  /\ (["("; ","] = [] ->
      fst (signatureCharactersGetter (Some ["("; ","]) None)
      = match @None (list string) with Some cs => cs | None => [] end).
Proof.
  apply (signatureCharacters_cache None (Some ["("; ","]) None
           ["("; ","] (Some ["("; ","])).
  reflexivity.
Defined.
